(** * RawTile: a shallow embedding of [src/RawTile.h]

    The class [RawTile] of the IIPImage server carries one block of decoded
    image samples together with its placement metadata.  The development
    below embeds the class over an explicit memory: a finite map from block
    addresses to typed arrays of bytes, with tombstones for released blocks,
    so that a double release, an access through a dangling pointer and a
    write past the end of an array are all observable as undefined
    behaviour ([None]).  Objects that are assigned to one another live in an
    object store, so that [this != &tile] and [delete this] mean what they
    mean in the source. *)

From Stdlib Require Import ZArith Lia String.
From stdpp Require Import gmap strings list fin_maps.

Local Open Scope Z_scope.

(** ** Machine integers *)

Module CInt.

(** [unsigned int] and [uint32_t] are 32 bits wide; [int] is 32 bits,
    two's complement. *)
Definition UINT32_MOD : Z := 2 ^ 32.

Definition is_uint32 (z : Z) : Prop := 0 <= z < UINT32_MOD.
Definition is_int (z : Z) : Prop := - 2 ^ 31 <= z < 2 ^ 31.

(** Conversion of an integer value to [unsigned int]. *)
Definition to_uint32 (z : Z) : Z := z mod UINT32_MOD.

(** Unsigned multiplication and addition wrap around. *)
Definition umul (a b : Z) : Z := to_uint32 (a * b).
Definition uadd (a b : Z) : Z := to_uint32 (a + b).

(** [bpc/8] on [int]: division truncates towards zero. *)
Definition bytes_per_channel (bpc : Z) : Z := bpc ÷ 8.

(** [(uint32_t) w * h * channels * (bpc/8)]: the product is evaluated
    left to right in unsigned arithmetic, the two [int] operands being
    converted to [unsigned int] first. *)
Definition byte_size (w h channels bpc : Z) : Z :=
  umul (umul (umul w h) (to_uint32 channels))
       (to_uint32 (bytes_per_channel bpc)).

(** [w * channels * (bpc/8)]: the length of one scanline. *)
Definition line_size (w channels bpc : Z) : Z :=
  umul (umul w (to_uint32 channels)) (to_uint32 (bytes_per_channel bpc)).

End CInt.
Export CInt.

(** ** Enumerations *)

Inductive ColorSpace := NONE | GREYSCALE | sRGB | CIELAB | BINARY.

Inductive ImageEncoding :=
  UNSUPPORTED | RAW | TIFF | JPEG2000 | JPEG | DEFLATE | PNG | WEBP | AVIF.

Inductive SampleType := FIXEDPOINT | FLOATINGPOINT.

#[global] Instance ImageEncoding_eq_dec : EqDecision ImageEncoding.
Proof. solve_decision. Defined.

#[global] Instance SampleType_eq_dec : EqDecision SampleType.
Proof. solve_decision. Defined.

(** ** Memory *)

Module Mem.

(** The element types the class allocates, releases and accesses arrays
    at. *)
Inductive ElemType := T_float | T_int | T_uint | T_ushort | T_uchar.

#[global] Instance ElemType_eq_dec : EqDecision ElemType.
Proof. solve_decision. Defined.

Definition sizeof (ty : ElemType) : Z :=
  match ty with
  | T_float | T_int | T_uint => 4
  | T_ushort => 2
  | T_uchar => 1
  end.

(** [allocate] creates 32 bit fixed point arrays with [new int[]] and
    [deallocate] releases them through [unsigned int*].  The two types
    differ in signedness only: they have the same size, alignment and
    trivial destructor, and the release is accepted. *)
Definition release_compatible (allocated released : ElemType) : bool :=
  match allocated, released with
  | T_int, T_uint | T_uint, T_int => true
  | a, b => bool_decide (a = b)
  end.

(** A byte of memory: [None] is the indeterminate value a fresh array
    holds. *)
Abbreviation cell := (option Z).

(** A block is a live array, or the tombstone of a released one.
    Addresses are never reused, so a dangling pointer stays dangling. *)
Inductive slot :=
| Live (ty : ElemType) (bytes : list cell)
| Freed.

Abbreviation heap := (gmap positive slot).

(** [void*]: the address of a block, or [NULL]. *)
Abbreviation pointer := (option positive).

(** [unsigned char*]: a block and a byte offset into it, or [NULL]. *)
Abbreviation byteptr := (option (positive * Z)).

Definition byte_cast (p : pointer) : byteptr :=
  match p with Some a => Some (a, 0) | None => None end.

Definition ptr_add (p : byteptr) (n : Z) : byteptr :=
  match p with Some (a, off) => Some (a, off + n) | None => None end.

(** [new T[n]]: a fresh array of [n] elements, contents indeterminate. *)
Definition new_array (ty : ElemType) (n : Z) (hp : heap) : positive * heap :=
  let a := fresh (dom hp) in
  (a, <[a := Live ty (replicate (Z.to_nat (sizeof ty * n)) None)]> hp).

(** [delete[] (T* ) p] for non-null [p]: the block must be a live array
    created at a compatible element type. *)
Definition delete_array (ty : ElemType) (a : positive) (hp : heap)
  : option heap :=
  match hp !! a with
  | Some (Live ty' _) =>
      if release_compatible ty' ty then Some (<[a := Freed]> hp) else None
  | _ => None
  end.

Definition zlength (bs : list cell) : Z := Z.of_nat (length bs).

Definition read_bytes (off n : Z) (bs : list cell) : list cell :=
  take (Z.to_nat n) (drop (Z.to_nat off) bs).

Definition write_bytes (off : Z) (xs bs : list cell) : list cell :=
  list_inserts (Z.to_nat off) xs bs.

(** [memcpy( dst, src, n )]: both ranges lie inside live arrays and do
    not overlap. *)
Definition memcpy (dst src : byteptr) (n : Z) (hp : heap) : option heap :=
  match dst, src with
  | Some (d, doff), Some (s, soff) =>
      match hp !! d, hp !! s with
      | Some (Live dty dbs), Some (Live _ sbs) =>
          if decide (0 <= n ∧ 0 <= doff ∧ 0 <= soff
                     ∧ doff + n <= zlength dbs ∧ soff + n <= zlength sbs
                     ∧ (d = s → doff + n <= soff ∨ soff + n <= doff))
          then Some (<[d := Live dty
                            (write_bytes doff (read_bytes soff n sbs) dbs)]> hp)
          else None
      | _, _ => None
      end
  | _, _ => None
  end.

(** [((T* ) dst)[j] = ((T* ) src)[i]]: one element is loaded and stored;
    at the level of bytes this moves [sizeof T] bytes. *)
Definition copy_elem (ty : ElemType) (dst : pointer) (j : Z)
                     (src : pointer) (i : Z) (hp : heap) : option heap :=
  match dst, src with
  | Some d, Some s =>
      match hp !! d, hp !! s with
      | Some (Live dty dbs), Some (Live _ sbs) =>
          let sz := sizeof ty in
          if decide (0 <= i ∧ 0 <= j
                     ∧ (j + 1) * sz <= zlength dbs
                     ∧ (i + 1) * sz <= zlength sbs)
          then Some (<[d := Live dty
                            (write_bytes (j * sz)
                                         (read_bytes (i * sz) sz sbs) dbs)]> hp)
          else None
      | _, _ => None
      end
  | _, _ => None
  end.

(** The bytes of the live array a pointer designates. *)
Definition block_bytes (p : pointer) (hp : heap) : option (list cell) :=
  match p with
  | Some a => match hp !! a with Some (Live _ bs) => Some bs | _ => None end
  | None => None
  end.

Definition block_type (p : pointer) (hp : heap) : option ElemType :=
  match p with
  | Some a => match hp !! a with Some (Live ty _) => Some ty | _ => None end
  | None => None
  end.

End Mem.
Export Mem.

(** ** The class *)

Record RawTile := mkRawTile {
  filename : string;
  width : Z;                       (* unsigned int *)
  height : Z;                      (* unsigned int *)
  channels : Z;                    (* int *)
  bpc : Z;                         (* int *)
  sampleType : SampleType;
  compressionType : ImageEncoding;
  quality : Z;                     (* int *)
  timestamp : Z;                   (* time_t *)
  tileNum : Z;                     (* int *)
  resolution : Z;                  (* int *)
  hSequence : Z;                   (* int *)
  vSequence : Z;                   (* int *)
  capacity : Z;                    (* uint32_t *)
  dataLength : Z;                  (* uint32_t *)
  memoryManaged : Z;               (* int *)
  data : pointer                   (* void* *)
}.

(** Assignments to single members. *)
Definition set_width (v : Z) (t : RawTile) : RawTile :=
  mkRawTile (filename t) v (height t) (channels t) (bpc t) (sampleType t)
    (compressionType t) (quality t) (timestamp t) (tileNum t) (resolution t)
    (hSequence t) (vSequence t) (capacity t) (dataLength t) (memoryManaged t)
    (data t).

Definition set_height (v : Z) (t : RawTile) : RawTile :=
  mkRawTile (filename t) (width t) v (channels t) (bpc t) (sampleType t)
    (compressionType t) (quality t) (timestamp t) (tileNum t) (resolution t)
    (hSequence t) (vSequence t) (capacity t) (dataLength t) (memoryManaged t)
    (data t).

Definition set_channels (v : Z) (t : RawTile) : RawTile :=
  mkRawTile (filename t) (width t) (height t) v (bpc t) (sampleType t)
    (compressionType t) (quality t) (timestamp t) (tileNum t) (resolution t)
    (hSequence t) (vSequence t) (capacity t) (dataLength t) (memoryManaged t)
    (data t).

Definition set_capacity (v : Z) (t : RawTile) : RawTile :=
  mkRawTile (filename t) (width t) (height t) (channels t) (bpc t)
    (sampleType t) (compressionType t) (quality t) (timestamp t) (tileNum t)
    (resolution t) (hSequence t) (vSequence t) v (dataLength t)
    (memoryManaged t) (data t).

Definition set_dataLength (v : Z) (t : RawTile) : RawTile :=
  mkRawTile (filename t) (width t) (height t) (channels t) (bpc t)
    (sampleType t) (compressionType t) (quality t) (timestamp t) (tileNum t)
    (resolution t) (hSequence t) (vSequence t) (capacity t) v
    (memoryManaged t) (data t).

Definition set_memoryManaged (v : Z) (t : RawTile) : RawTile :=
  mkRawTile (filename t) (width t) (height t) (channels t) (bpc t)
    (sampleType t) (compressionType t) (quality t) (timestamp t) (tileNum t)
    (resolution t) (hSequence t) (vSequence t) (capacity t) (dataLength t)
    v (data t).

Definition set_data (v : pointer) (t : RawTile) : RawTile :=
  mkRawTile (filename t) (width t) (height t) (channels t) (bpc t)
    (sampleType t) (compressionType t) (quality t) (timestamp t) (tileNum t)
    (resolution t) (hSequence t) (vSequence t) (capacity t) (dataLength t)
    (memoryManaged t) v.

Definition set_filename (v : string) (t : RawTile) : RawTile :=
  mkRawTile v (width t) (height t) (channels t) (bpc t)
    (sampleType t) (compressionType t) (quality t) (timestamp t) (tileNum t)
    (resolution t) (hSequence t) (vSequence t) (capacity t) (dataLength t)
    (memoryManaged t) (data t).

(** Main constructor, all eight parameters of type [int]. *)
Definition RawTile_new (tn res hs vs w h c b : Z) : RawTile :=
  {| filename := EmptyString;
     width := to_uint32 w;
     height := to_uint32 h;
     channels := c;
     bpc := b;
     sampleType := FIXEDPOINT;
     compressionType := RAW;
     quality := 0;
     timestamp := 0;
     tileNum := tn;
     resolution := res;
     hSequence := hs;
     vSequence := vs;
     capacity := 0;
     dataLength := 0;
     memoryManaged := 1;
     data := None |}.

(** The size [allocate] computes when it is called with none:
    [(uint32_t) width * height * channels * (bpc/8)]. *)
Definition default_size (t : RawTile) : Z :=
  byte_size (width t) (height t) (channels t) (bpc t).

(** [allocate( size )] *)
Definition allocate (size : Z) (t : RawTile) (hp : heap) : RawTile * heap :=
  let size := if size =? 0 then default_size t else size in
  let '(a, hp') :=
    if bpc t =? 32 then
      match sampleType t with
      | FLOATINGPOINT => new_array T_float (size / 4) hp
      | FIXEDPOINT => new_array T_int (size / 4) hp
      end
    else if bpc t =? 16 then new_array T_ushort (size / 2) hp
    else new_array T_uchar size hp in
  (set_capacity size (set_memoryManaged 1 (set_data (Some a) t)), hp').

(** [deallocate( buffer )].  The assignment [buffer = NULL] is to the
    parameter, a copy of the caller's pointer: the member [data] keeps its
    value. *)
Definition deallocate (buffer : pointer) (t : RawTile) (hp : heap)
  : option (RawTile * heap) :=
  match buffer with
  | Some a =>
      hp' ← (if bpc t =? 32 then
               match sampleType t with
               | FLOATINGPOINT => delete_array T_float a hp
               | FIXEDPOINT => delete_array T_uint a hp
               end
             else if bpc t =? 16 then delete_array T_ushort a hp
             else delete_array T_uchar a hp);
      Some (set_dataLength 0 (set_capacity 0 t), hp')
  | None => Some (t, hp)
  end.

(** The destructor; the object is gone afterwards, the memory remains. *)
Definition destructor (t : RawTile) (hp : heap) : option heap :=
  if memoryManaged t =? 0 then Some hp
  else snd <$> deallocate (data t) t hp.

(** The scanline loop of [crop]. *)
Fixpoint crop_lines (rows : nat) (dst_ptr src_ptr : byteptr)
                    (dlen slen : Z) (hp : heap) : option heap :=
  match rows with
  | O => Some hp
  | S rows' =>
      hp' ← memcpy dst_ptr src_ptr dlen hp;
      crop_lines rows' (ptr_add dst_ptr dlen) (ptr_add src_ptr slen)
                 dlen slen hp'
  end.

(** [crop( w, h )] *)
Definition crop (w h : Z) (t : RawTile) (hp : heap)
  : option (RawTile * heap) :=
  let buffer := data t in
  let mm := memoryManaged t in
  let len := byte_size w h (channels t) (bpc t) in
  let '(t1, hp1) := allocate len t hp in
  let src_ptr := byte_cast buffer in
  let dst_ptr := byte_cast (data t1) in
  let dlen := line_size w (channels t1) (bpc t1) in
  let slen := line_size (width t1) (channels t1) (bpc t1) in
  hp2 ← crop_lines (Z.to_nat h) dst_ptr src_ptr dlen slen hp1;
  '(t2, hp3) ← (if mm =? 0 then Some (t1, hp2) else deallocate buffer t1 hp2);
  Some (set_height h (set_width w (set_dataLength len (set_capacity len t2))),
        hp3).

(** The assignment inside the two loops of [triplicate]. *)
Definition triplicate_sample (t : RawTile) (buffer : pointer) (n k i : Z)
                             (hp : heap) : option heap :=
  let j := uadd n k in
  if bpc t =? 32 then
    match sampleType t with
    | FLOATINGPOINT => copy_elem T_float (data t) j buffer i hp
    | FIXEDPOINT => copy_elem T_uint (data t) j buffer i hp
    end
  else if bpc t =? 16 then copy_elem T_ushort (data t) j buffer i hp
  else copy_elem T_uchar (data t) j buffer i hp.

(** The inner loop, [k] from 0 to 2. *)
Definition triplicate_pixel (t : RawTile) (buffer : pointer) (n i : Z)
                            (hp : heap) : option heap :=
  hp0 ← triplicate_sample t buffer n 0 i hp;
  hp1 ← triplicate_sample t buffer n 1 i hp0;
  triplicate_sample t buffer n 2 i hp1.

(** The outer loop, with [pixels] iterations left. *)
Fixpoint triplicate_pixels (pixels : nat) (t : RawTile) (buffer : pointer)
                           (n i : Z) (hp : heap) : option heap :=
  match pixels with
  | O => Some hp
  | S pixels' =>
      hp' ← triplicate_pixel t buffer n i hp;
      triplicate_pixels pixels' t buffer (uadd n 3) (i + 1) hp'
  end.

(** [triplicate()] *)
Definition triplicate (t : RawTile) (hp : heap) : option (RawTile * heap) :=
  if negb (channels t =? 1) then Some (t, hp)
  else
    let buffer := data t in
    let mm := memoryManaged t in
    let t0 := set_channels 3 t in
    let '(t1, hp1) := allocate 0 t0 hp in
    let len := umul (width t1) (height t1) in
    hp2 ← triplicate_pixels (Z.to_nat len) t1 buffer 0 0 hp1;
    '(t2, hp3) ← (if mm =? 0 then Some (t1, hp2)
                  else deallocate buffer t1 hp2);
    Some (set_dataLength len (set_capacity len t2), hp3).

(** [operator ==] and [operator !=], both returning [int]. *)
Definition op_eq (A B : RawTile) : Z :=
  if bool_decide (tileNum A = tileNum B)
     && bool_decide (resolution A = resolution B)
     && bool_decide (hSequence A = hSequence B)
     && bool_decide (vSequence A = vSequence B)
     && bool_decide (compressionType A = compressionType B)
     && bool_decide (quality A = quality B)
     && bool_decide (filename A = filename B)
  then 1 else 0.

Definition op_neq (A B : RawTile) : Z :=
  if bool_decide (tileNum A = tileNum B)
     && bool_decide (resolution A = resolution B)
     && bool_decide (hSequence A = hSequence B)
     && bool_decide (vSequence A = vSequence B)
     && bool_decide (compressionType A = compressionType B)
     && bool_decide (quality A = quality B)
     && bool_decide (filename A = filename B)
  then 0 else 1.

(** The test [tile.data && tile.dataLength > 0] of the copy and move
    operations. *)
Definition has_data (tile : RawTile) : bool :=
  match data tile with
  | Some _ => 0 <? dataLength tile
  | None => false
  end.

(** The block shared by the copy and move operations:
    [allocate( tile.dataLength ); memcpy( data, tile.data, tile.dataLength );
     memoryManaged = 1;] *)
Definition copy_data (this tile : RawTile) (hp : heap)
  : option (RawTile * heap) :=
  let '(this1, hp1) := allocate (dataLength tile) this hp in
  hp2 ← memcpy (byte_cast (data this1)) (byte_cast (data tile))
               (dataLength tile) hp1;
  Some (set_memoryManaged 1 this1, hp2).

(** Copy constructor: every member but [data] is initialised from [tile],
    [data] is initialised to [NULL]. *)
Definition copy_construct (tile : RawTile) (hp : heap)
  : option (RawTile * heap) :=
  let this := set_data None tile in
  if has_data tile then copy_data this tile hp else Some (this, hp).

(** Move constructor; returns the new tile and the tile moved from.
    [filename( tile.filename )] copies: [tile] is an lvalue there. *)
Definition move_construct (tile : RawTile) (hp : heap)
  : option (RawTile * RawTile * heap) :=
  let this := set_data None tile in
  if memoryManaged tile =? 1 then
    let this1 := set_data (data tile) this in
    let tile1 :=
      set_memoryManaged 0
        (set_capacity 0 (set_dataLength 0 (set_data None tile))) in
    Some (this1, tile1, hp)
  else if has_data tile then
    '(this1, hp1) ← copy_data this tile hp;
    Some (this1, tile, hp1)
  else Some (this, tile, hp).

(** *** Objects

    The two assignment operators act on objects that already exist and
    compare their addresses; [operator= (RawTile&&)] also deletes its own
    object.  Objects are kept in a store, by address. *)

Record machine := mkMachine {
  objs : gmap nat RawTile;
  mem : gmap positive slot
}.

Definition set_obj (o : nat) (t : RawTile) (m : machine) : machine :=
  {| objs := <[o := t]> (objs m); mem := mem m |}.

(** The members the copy assignment assigns before it looks at the data:
    all but [data]. *)
Definition assign_members (this tile : RawTile) : RawTile :=
  set_data (data this) tile.

(** [operator= ( const RawTile& tile )] *)
Definition copy_assign (this tile : nat) (m : machine) : option machine :=
  if decide (this = tile) then Some m
  else
    src ← objs m !! tile;
    me ← objs m !! this;
    let me1 := assign_members me src in
    if has_data src then
      '(me2, hp) ← copy_data me1 src (mem m);
      Some {| objs := <[this := me2]> (objs m); mem := hp |}
    else Some (set_obj this me1 m).

(** [delete this]: the destructor runs and the storage of the object is
    released; the object no longer exists. *)
Definition delete_this (this : nat) (m : machine) : option machine :=
  me ← objs m !! this;
  hp ← destructor me (mem m);
  Some {| objs := delete this (objs m); mem := hp |}.

(** [operator= ( RawTile&& tile )].  After [filename = std::move( ... )]
    the string of [tile] is in a valid but unspecified state; it is
    modelled as the empty string, which is what the common implementations
    leave. *)
Definition move_assign (this tile : nat) (m : machine) : option machine :=
  if decide (this = tile) then Some m
  else
    me ← objs m !! this;
    m1 ← (if has_data me then delete_this this m else Some m);
    me ← objs m1 !! this;
    src ← objs m1 !! tile;
    let me1 := assign_members me src in
    let src1 := set_filename EmptyString src in
    if memoryManaged src =? 1 then
      let me2 := set_data (data src) me1 in
      let src2 :=
        set_memoryManaged 0
          (set_capacity 0 (set_dataLength 0 (set_data None src1))) in
      Some {| objs := <[tile := src2]> (<[this := me2]> (objs m1));
              mem := mem m1 |}
    else if has_data src then
      '(me2, hp) ← copy_data me1 src (mem m1);
      Some {| objs := <[tile := src1]> (<[this := me2]> (objs m1));
              mem := hp |}
    else
      Some {| objs := <[tile := src1]> (<[this := me1]> (objs m1));
              mem := mem m1 |}.

(** ** Notions used by the statements *)

(** The element type [allocate] creates the array at, the one
    [deallocate] releases it at, and their common size. *)
Definition alloc_type (t : RawTile) : ElemType :=
  if bpc t =? 32 then
    match sampleType t with FLOATINGPOINT => T_float | FIXEDPOINT => T_int end
  else if bpc t =? 16 then T_ushort else T_uchar.

Definition release_type (t : RawTile) : ElemType :=
  if bpc t =? 32 then
    match sampleType t with FLOATINGPOINT => T_float | FIXEDPOINT => T_uint end
  else if bpc t =? 16 then T_ushort else T_uchar.

Definition elem_size (t : RawTile) : Z :=
  if bpc t =? 32 then 4 else if bpc t =? 16 then 2 else 1.

(** The number of bytes of the array [allocate] creates for a request of
    [size] bytes: whole elements only. *)
Definition alloc_bytes (t : RawTile) (size : Z) : Z :=
  elem_size t * (size / elem_size t).

Definition requested_size (size : Z) (t : RawTile) : Z :=
  if size =? 0 then default_size t else size.

(** A buffer the tile owns is one [deallocate] may release: a live array
    created at the element type of the tile, as [allocate] does. *)
Definition releasable (t : RawTile) (hp : heap) : Prop :=
  memoryManaged t ≠ 0 →
  ∃ ty, block_type (data t) hp = Some ty
        ∧ release_compatible ty (release_type t) = true.

(** Scanline [i] of a buffer whose lines are [len] bytes long. *)
Definition scanline (bs : list cell) (len i : Z) : list cell :=
  read_bytes (i * len) len bs.

(** The top-left sub-rectangle, in the words of the specification: the
    first [rows] scanlines of a buffer whose lines are [slen] bytes long,
    each truncated to [dlen] bytes, from top to bottom. *)
Definition top_left_rectangle (src : list cell) (slen dlen rows : Z)
  : list cell :=
  concat ((λ i, take (Z.to_nat dlen) (scanline src slen i)) <$> seqZ 0 rows).

(** Element [i] of a buffer of elements of [sz] bytes. *)
Definition element (bs : list cell) (sz i : Z) : list cell :=
  read_bytes (i * sz) sz bs.

(** The identity of a tile, as far as the comparison operators look. *)
Definition same_identity (A B : RawTile) : Prop :=
  tileNum A = tileNum B
  ∧ resolution A = resolution B
  ∧ hSequence A = hSequence B
  ∧ vSequence A = vSequence B
  ∧ compressionType A = compressionType B
  ∧ quality A = quality B
  ∧ filename A = filename B.

(** The members the comparison operators do not read; two tiles that
    differ in these only have the same identity. *)
Definition with_payload (w h c b : Z) (st : SampleType) (ts cap len mm : Z)
                        (d : pointer) (t : RawTile) : RawTile :=
  mkRawTile (filename t) w h c b st (compressionType t) (quality t) ts
    (tileNum t) (resolution t) (hSequence t) (vSequence t) cap len mm d.

(** Assignments to the members that are compared. *)
Definition set_tileNum (v : Z) (t : RawTile) : RawTile :=
  mkRawTile (filename t) (width t) (height t) (channels t) (bpc t)
    (sampleType t) (compressionType t) (quality t) (timestamp t) v
    (resolution t) (hSequence t) (vSequence t) (capacity t) (dataLength t)
    (memoryManaged t) (data t).

Definition set_resolution (v : Z) (t : RawTile) : RawTile :=
  mkRawTile (filename t) (width t) (height t) (channels t) (bpc t)
    (sampleType t) (compressionType t) (quality t) (timestamp t) (tileNum t)
    v (hSequence t) (vSequence t) (capacity t) (dataLength t)
    (memoryManaged t) (data t).

Definition set_hSequence (v : Z) (t : RawTile) : RawTile :=
  mkRawTile (filename t) (width t) (height t) (channels t) (bpc t)
    (sampleType t) (compressionType t) (quality t) (timestamp t) (tileNum t)
    (resolution t) v (vSequence t) (capacity t) (dataLength t)
    (memoryManaged t) (data t).

Definition set_vSequence (v : Z) (t : RawTile) : RawTile :=
  mkRawTile (filename t) (width t) (height t) (channels t) (bpc t)
    (sampleType t) (compressionType t) (quality t) (timestamp t) (tileNum t)
    (resolution t) (hSequence t) v (capacity t) (dataLength t)
    (memoryManaged t) (data t).

Definition set_compressionType (v : ImageEncoding) (t : RawTile) : RawTile :=
  mkRawTile (filename t) (width t) (height t) (channels t) (bpc t)
    (sampleType t) v (quality t) (timestamp t) (tileNum t)
    (resolution t) (hSequence t) (vSequence t) (capacity t) (dataLength t)
    (memoryManaged t) (data t).

Definition set_quality (v : Z) (t : RawTile) : RawTile :=
  mkRawTile (filename t) (width t) (height t) (channels t) (bpc t)
    (sampleType t) (compressionType t) v (timestamp t) (tileNum t)
    (resolution t) (hSequence t) (vSequence t) (capacity t) (dataLength t)
    (memoryManaged t) (data t).

(** The buffer of [tile] holds the [dataLength] bytes the tile announces,
    a positive and whole number of elements of its type; [src] are the
    bytes of the array. *)
Definition holds_data (tile : RawTile) (hp : heap) (src : list cell) : Prop :=
  block_bytes (data tile) hp = Some src
  ∧ 0 < dataLength tile <= zlength src
  ∧ (elem_size tile | dataLength tile).

(** [this] owns a copy of the [dataLength] bytes of [tile], in an array of
    its own that did not exist in [hp]; [hp'] is [hp] with that array.
    Apart from [data], [capacity] and [memoryManaged], the members of
    [this] are those of [tile]. *)
Definition deep_copy_of (tile this : RawTile) (src : list cell)
                        (hp hp' : heap) : Prop :=
  ∃ a,
    data this = Some a
    ∧ hp !! a = None
    ∧ hp' = <[a := Live (alloc_type tile)
                      (take (Z.to_nat (dataLength tile)) src)]> hp
    ∧ memoryManaged this = 1
    ∧ capacity this = dataLength tile
    ∧ set_data (data tile)
        (set_capacity (capacity tile)
           (set_memoryManaged (memoryManaged tile) this)) = tile.

(** The state the move operations leave a tile in that owned its
    buffer. *)
Definition released (tile : RawTile) : RawTile :=
  set_memoryManaged 0 (set_capacity 0 (set_dataLength 0 (set_data None tile))).

(** What is observed of a tile and its buffer: width, height, channels,
    capacity, dataLength, memoryManaged and the bytes [data] points to. *)
Definition observe (r : RawTile * heap)
  : Z * Z * Z * Z * Z * Z * option (list cell) :=
  (width r.1, height r.1, channels r.1, capacity r.1, dataLength r.1,
   memoryManaged r.1, block_bytes (data r.1) r.2).

(** ** Sample tiles *)

(** A 2 by 2 tile of one 8 bit channel and a 2 by 2 tile of three, as the
    constructor leaves them. *)
Definition tile_2x2 : RawTile := RawTile_new 0 0 0 0 2 2 1 8.

Definition tile_rgb : RawTile := RawTile_new 0 0 0 0 2 2 3 8.

(** The 4 by 4 tile of one 8 bit channel of the specification, its buffer
    holding the bytes 0 to 15, and the memory it lives in. *)
Definition tile_4x4 : RawTile :=
  set_dataLength 16
    (set_capacity 16 (set_data (Some 1%positive) (RawTile_new 0 0 0 0 4 4 1 8))).

Definition bytes_4x4 : list cell :=
  Some <$> [0; 1; 2; 3; 4; 5; 6; 7; 8; 9; 10; 11; 12; 13; 14; 15].

Definition heap_4x4 : heap := {[ 1%positive := Live T_uchar bytes_4x4 ]}.

(** A 2 by 1 tile of one 16 bit channel whose buffer holds the two
    samples (1,2) and (3,4). *)
Definition tile_2x1_16 : RawTile :=
  set_dataLength 4
    (set_capacity 4 (set_data (Some 1%positive) (RawTile_new 0 0 0 0 2 1 1 16))).

Definition heap_2x1_16 : heap :=
  {[ 1%positive := Live T_ushort (Some <$> [1; 2; 3; 4]) ]}.

(** A tile that owns a buffer of one byte. *)
Definition tile_1x1 : RawTile :=
  set_dataLength 1
    (set_capacity 1 (set_data (Some 2%positive) (RawTile_new 1 0 0 0 1 1 1 8))).

(** A tile after its buffer was moved out of it. *)
Definition tile_moved_from : RawTile := set_memoryManaged 0 tile_2x2.

(** A 32 bit tile that announces five bytes of data, in an array of eight
    bytes it does not own. *)
Definition tile_five_bytes : RawTile :=
  set_memoryManaged 0
    (set_dataLength 5
       (set_capacity 8
          (set_data (Some 1%positive) (RawTile_new 0 0 0 0 2 1 1 32)))).

Definition heap_five_bytes : heap :=
  {[ 1%positive := Live T_int (Some <$> [1; 2; 3; 4; 5; 6; 7; 8]) ]}.

(** Two objects: at address 0 the 4 by 4 tile with its buffer, at address
    1 a tile without a buffer. *)
Definition two_tiles : machine :=
  {| objs := {[ 0%nat := tile_4x4; 1%nat := tile_2x2 ]}; mem := heap_4x4 |}.

(** Two objects that both own a buffer: at address 0 the 4 by 4 tile, at
    address 1 the one byte tile. *)
Definition two_owners : machine :=
  {| objs := {[ 0%nat := tile_4x4; 1%nat := tile_1x1 ]};
     mem := <[ 2%positive := Live T_uchar [Some 9] ]> heap_4x4 |}.

(** ** Further notions and sample data *)

(** The two tiles hold the same reference, sizes and ownership flag. *)
Definition same_buffer_members (A B : RawTile) : Prop :=
  data A = data B ∧ capacity A = capacity B
  ∧ dataLength A = dataLength B ∧ memoryManaged A = memoryManaged B.

(** A 32 bit floating point tile of 3 by 1 pixels without a buffer. *)
Definition tile_float : RawTile :=
  mkRawTile EmptyString 3 1 1 32 FLOATINGPOINT RAW 0 0 0 0 0 0 0 0 1 None.

(** A tile of one bit per channel, 2 by 2, with a buffer of four bytes. *)
Definition tile_binary : RawTile :=
  set_dataLength 4
    (set_capacity 4 (set_data (Some 1%positive) (RawTile_new 0 0 0 0 2 2 1 1))).

Definition heap_binary : heap :=
  {[ 1%positive := Live T_uchar (Some <$> [0; 1; 1; 0]) ]}.

(** A 16 bit tile that announces three bytes of data, in an array of
    four bytes it owns. *)
Definition tile_three_bytes : RawTile :=
  set_dataLength 3
    (set_capacity 4 (set_data (Some 1%positive) (RawTile_new 0 0 0 0 2 1 1 16))).

(** Two objects that both own a buffer, the destination being the 2 by 1
    tile of 16 bit samples at address 1, the source the one byte tile at
    address 0. *)
Definition tile_2x1_16_at_3 : RawTile := set_data (Some 3%positive) tile_2x1_16.

Definition two_buffers : machine :=
  {| objs := {[ 0%nat := tile_4x4; 1%nat := tile_2x1_16_at_3 ]};
     mem := <[ 3%positive := Live T_ushort (Some <$> [1; 2; 3; 4]) ]> heap_4x4 |}.

(** The 4 by 4 tile as a borrower of its buffer. *)
Definition tile_4x4_borrowed : RawTile := set_memoryManaged 0 tile_4x4.

(** * Properties *)

(** ** The model at work *)

Example crop_4x4_to_2x2 :
  observe <$> crop 2 2 tile_4x4 heap_4x4
  = Some (2, 2, 1, 4, 4, 1, Some (Some <$> [0; 1; 4; 5])).
Proof. by vm_compute. Qed.

Example crop_4x4_to_nothing :
  observe <$> crop 0 0 tile_4x4 heap_4x4
  = Some (0, 0, 1, 0, 0, 1, Some (replicate 16 None)).
Proof. by vm_compute. Qed.

Example crop_4x4_beyond_the_tile : crop 5 4 tile_4x4 heap_4x4 = None.
Proof. by vm_compute. Qed.

Example triplicate_2x1 :
  observe <$> triplicate tile_2x1_16 heap_2x1_16
  = Some (2, 1, 3, 2, 2, 1,
          Some (Some <$> [1; 2; 1; 2; 1; 2; 3; 4; 3; 4; 3; 4])).
Proof. by vm_compute. Qed.

Example copy_4x4 :
  observe <$> copy_construct tile_4x4 heap_4x4
  = Some (4, 4, 1, 16, 16, 1, Some bytes_4x4).
Proof. by vm_compute. Qed.

(** The unsigned product wraps around. *)
Example default_size_wraps :
  default_size (RawTile_new 0 0 0 0 65536 65536 1 8) = 0.
Proof. by vm_compute. Qed.

(** [allocate] creates whole elements only: a request for five bytes of
    32 bit samples gives an array of four, and the [memcpy] of the copy
    constructor does not fit. *)
Example copy_of_five_bytes : copy_construct tile_five_bytes heap_five_bytes = None.
Proof. by vm_compute. Qed.

(** Reduction of member accesses after member assignments. *)
Ltac tile_simpl :=
  cbn [filename width height channels bpc sampleType compressionType quality
       timestamp tileNum resolution hSequence vSequence capacity dataLength
       memoryManaged data set_width set_height set_channels set_capacity
       set_dataLength set_memoryManaged set_data set_filename fst snd] in *.

(** ** Arithmetic *)

Section Arithmetic.

Lemma to_uint32_range z : is_uint32 (to_uint32 z).
Proof. unfold is_uint32, to_uint32, UINT32_MOD. apply Z.mod_pos_bound. lia. Qed.

Lemma to_uint32_small z : is_uint32 z → to_uint32 z = z.
Proof. unfold is_uint32, to_uint32. intros. by apply Z.mod_small. Qed.

Lemma UINT32_MOD_nonzero : UINT32_MOD ≠ 0.
Proof. unfold UINT32_MOD. lia. Qed.

Lemma mod_mul_mod a b :
  ((a mod UINT32_MOD) * (b mod UINT32_MOD)) mod UINT32_MOD
  = (a * b) mod UINT32_MOD.
Proof. symmetry. apply Z.mul_mod, UINT32_MOD_nonzero. Qed.

(** The unsigned product is the mathematical one, reduced modulo 2^32. *)
Lemma byte_size_mod w h c b :
  byte_size w h c b = (w * h * c * (b ÷ 8)) mod UINT32_MOD.
Proof.
  unfold byte_size, bytes_per_channel, umul, to_uint32.
  by rewrite (mod_mul_mod (w * h) c), (mod_mul_mod (w * h * c) (b ÷ 8)).
Qed.

Lemma line_size_mod w c b :
  line_size w c b = (w * c * (b ÷ 8)) mod UINT32_MOD.
Proof.
  unfold line_size, bytes_per_channel, umul, to_uint32.
  rewrite (Z.mul_mod_idemp_r w c) by apply UINT32_MOD_nonzero.
  by rewrite (mod_mul_mod (w * c) (b ÷ 8)).
Qed.

Lemma byte_size_exact w h c b :
  is_uint32 (w * h * c * (b ÷ 8)) → byte_size w h c b = w * h * c * (b ÷ 8).
Proof. intros. rewrite byte_size_mod. by apply Z.mod_small. Qed.

Lemma line_size_exact w c b :
  is_uint32 (w * c * (b ÷ 8)) → line_size w c b = w * c * (b ÷ 8).
Proof. intros. rewrite line_size_mod. by apply Z.mod_small. Qed.

Lemma byte_size_range w h c b : is_uint32 (byte_size w h c b).
Proof. rewrite byte_size_mod. apply to_uint32_range. Qed.

Lemma quot8_nonneg b : 0 <= b → 0 <= b ÷ 8.
Proof. intros. apply Z.quot_pos; lia. Qed.

End Arithmetic.

(** ** Memory *)

Section Memory.

Implicit Types (hp : gmap positive slot) (bs : list cell).

Lemma fresh_unused hp : hp !! fresh (dom hp) = None.
Proof. apply not_elem_of_dom, is_fresh. Qed.

Lemma zlength_replicate n (c : cell) :
  0 <= n → zlength (replicate (Z.to_nat n) c) = n.
Proof. intros. unfold zlength. rewrite length_replicate. lia. Qed.

Lemma length_write_bytes off xs bs :
  length (write_bytes off xs bs) = length bs.
Proof. apply length_inserts. Qed.

Lemma zlength_write_bytes off xs bs :
  zlength (write_bytes off xs bs) = zlength bs.
Proof. unfold zlength. by rewrite length_write_bytes. Qed.

Lemma length_read_bytes off n bs :
  0 <= off → 0 <= n → off + n <= zlength bs →
  length (read_bytes off n bs) = Z.to_nat n.
Proof.
  unfold read_bytes, zlength. intros.
  rewrite length_take, length_drop. lia.
Qed.

Lemma lookup_read_bytes off n bs (k : nat) :
  0 <= off → (k < Z.to_nat n)%nat →
  read_bytes off n bs !! k = bs !! (Z.to_nat off + k)%nat.
Proof.
  unfold read_bytes. intros. by rewrite lookup_take_lt, lookup_drop.
Qed.

(** What a range of [n] bytes copied from offset [soff] of [sbs] to offset
    [doff] of [dbs] leaves in the destination. *)
Lemma lookup_copy_range doff soff n sbs dbs (k : nat) :
  0 <= doff → 0 <= soff → 0 <= n →
  doff + n <= zlength dbs → soff + n <= zlength sbs →
  write_bytes doff (read_bytes soff n sbs) dbs !! k
  = if decide (doff <= Z.of_nat k < doff + n)
    then sbs !! Z.to_nat (soff + (Z.of_nat k - doff))
    else dbs !! k.
Proof.
  intros Hd Hs Hn Hdl Hsl. unfold write_bytes.
  pose proof (length_read_bytes soff n sbs Hs Hn Hsl) as Hlen.
  unfold zlength in *. case_decide as Hk.
  - rewrite list_lookup_inserts by lia.
    rewrite lookup_read_bytes by lia. f_equal. lia.
  - destruct (decide (Z.of_nat k < doff)).
    + rewrite list_lookup_inserts_lt by lia. done.
    + rewrite list_lookup_inserts_ge by lia. done.
Qed.

Lemma memcpy_spec d doff s soff n hp dty dbs sty sbs :
  d ≠ s →
  hp !! d = Some (Live dty dbs) → hp !! s = Some (Live sty sbs) →
  0 <= n → 0 <= doff → 0 <= soff →
  doff + n <= zlength dbs → soff + n <= zlength sbs →
  memcpy (Some (d, doff)) (Some (s, soff)) n hp
  = Some (<[d := Live dty (write_bytes doff (read_bytes soff n sbs) dbs)]> hp).
Proof.
  intros Hne Hd Hs ?????. unfold memcpy. rewrite Hd, Hs.
  rewrite decide_True; [done|]. repeat split; try done.
Qed.

Lemma copy_elem_spec ty d j s i hp dty dbs sty sbs :
  hp !! d = Some (Live dty dbs) → hp !! s = Some (Live sty sbs) →
  0 <= i → 0 <= j →
  (j + 1) * sizeof ty <= zlength dbs → (i + 1) * sizeof ty <= zlength sbs →
  copy_elem ty (Some d) j (Some s) i hp
  = Some (<[d := Live dty
                   (write_bytes (j * sizeof ty)
                      (read_bytes (i * sizeof ty) (sizeof ty) sbs) dbs)]> hp).
Proof.
  intros Hd Hs ????. unfold copy_elem. rewrite Hd, Hs. simpl.
  rewrite decide_True; [done|]. repeat split; done.
Qed.

End Memory.

(** ** Typed allocation and release *)

Section Allocation.

Implicit Types (t : RawTile) (hp : gmap positive slot).

Lemma elem_size_pos t : 0 < elem_size t.
Proof. unfold elem_size. repeat case_match; lia. Qed.

Lemma release_alloc_compatible t :
  release_compatible (alloc_type t) (release_type t) = true.
Proof.
  unfold alloc_type, release_type. repeat case_match; done.
Qed.

Lemma alloc_bytes_le t size : 0 <= size → 0 <= alloc_bytes t size <= size.
Proof.
  intros. unfold alloc_bytes. pose proof (elem_size_pos t).
  split; [apply Z.mul_nonneg_nonneg; [lia|apply Z.div_pos; lia]|].
  apply Z.mul_div_le. lia.
Qed.

Lemma alloc_bytes_exact t size :
  (elem_size t | size) → alloc_bytes t size = size.
Proof.
  intros [k ->]. unfold alloc_bytes. pose proof (elem_size_pos t).
  rewrite Z.div_mul by lia. lia.
Qed.

(** [allocate] in one equation. *)
Lemma allocate_eq size t hp :
  allocate size t hp
  = (set_capacity (requested_size size t)
       (set_memoryManaged 1 (set_data (Some (fresh (dom hp))) t)),
     <[fresh (dom hp) :=
         Live (alloc_type t)
           (replicate (Z.to_nat (alloc_bytes t (requested_size size t)))
              None)]> hp).
Proof.
  unfold allocate, requested_size, alloc_type, alloc_bytes, elem_size,
    new_array.
  repeat case_match; simplify_eq/=; try done.
  all: by rewrite Z.div_1_r.
Qed.

(** [deallocate] of a non-null pointer in one equation. *)
Lemma deallocate_eq a t hp :
  deallocate (Some a) t hp
  = hp' ← delete_array (release_type t) a hp;
    Some (set_dataLength 0 (set_capacity 0 t), hp').
Proof.
  unfold deallocate, release_type. repeat case_match; done.
Qed.

Lemma deallocate_live a t hp ty bs :
  hp !! a = Some (Live ty bs) →
  release_compatible ty (release_type t) = true →
  deallocate (Some a) t hp
  = Some (set_dataLength 0 (set_capacity 0 t), <[a := Freed]> hp).
Proof.
  intros Ha Hc. rewrite deallocate_eq. unfold delete_array.
  by rewrite Ha, Hc.
Qed.

Lemma deallocate_freed a t hp :
  hp !! a = Some Freed → deallocate (Some a) t hp = None.
Proof. intros Ha. rewrite deallocate_eq. unfold delete_array. by rewrite Ha. Qed.

(** Allocation followed by release, for every [bpc] and [sampleType]: the
    two sizes are reset, the block is released, and the member [data]
    still holds its address. *)
Lemma allocate_then_deallocate size t hp :
  let '(t1, hp1) := allocate size t hp in
  ∃ a t2 hp2,
    data t1 = Some a
    ∧ deallocate (data t1) t1 hp1 = Some (t2, hp2)
    ∧ capacity t2 = 0 ∧ dataLength t2 = 0 ∧ memoryManaged t2 = 1
    ∧ data t2 = Some a ∧ hp2 !! a = Some Freed.
Proof.
  rewrite allocate_eq. set (a := fresh (dom hp)).
  eexists a, _, _. tile_simpl. split; [done|].
  erewrite deallocate_live;
    [|apply lookup_insert_eq|apply (release_alloc_compatible t)].
  repeat split; try done. apply lookup_insert_eq.
Qed.

End Allocation.

(** ** Allocation and release: the claims *)

(** C7.  [allocate] called with size zero computes the size as
    [width * height * channels * (bpc/8)], in the unsigned 32 bit
    arithmetic of the source, which is the product itself whenever that
    fits in 32 bits; after [allocate( size )] the capacity is the size,
    the tile owns the buffer, and [data] is the address of a fresh live
    array of the element type selected by [bpc] and [sampleType] (for
    every size, so in particular whenever the size is positive). *)
Theorem allocate_capacity_and_ownership (size : Z) (t : RawTile)
                                        (hp : gmap positive slot) :
  default_size t
  = (width t * height t * channels t * (bpc t ÷ 8)) mod 2 ^ 32
  ∧ (is_uint32 (width t * height t * channels t * (bpc t ÷ 8)) →
     default_size t = width t * height t * channels t * (bpc t ÷ 8))
  ∧ (size = 0 → capacity (allocate size t hp).1 = default_size t)
  ∧ (size ≠ 0 → capacity (allocate size t hp).1 = size)
  ∧ memoryManaged (allocate size t hp).1 = 1
  ∧ ∃ a, data (allocate size t hp).1 = Some a
         ∧ hp !! a = None
         ∧ block_type (Some a) (allocate size t hp).2 = Some (alloc_type t)
         ∧ (∀ a', a' ≠ a → (allocate size t hp).2 !! a' = hp !! a').
Proof.
  rewrite allocate_eq. tile_simpl. unfold requested_size.
  split; [apply byte_size_mod|].
  split; [apply byte_size_exact|].
  split; [by intros ->|].
  split; [intros Hs; by rewrite (proj2 (Z.eqb_neq size 0) Hs)|].
  split; [done|].
  exists (fresh (dom hp)). split; [done|]. split; [apply fresh_unused|].
  split.
  - unfold block_type. by rewrite lookup_insert_eq.
  - intros a' Ha'. by rewrite lookup_insert_ne.
Qed.

(** C7, evaluated: a 2 by 2 tile of one 8 bit channel, no size given. *)
Lemma allocate_capacity_and_ownership_witness :
  capacity (allocate 0 tile_2x2 ∅).1 = 2 * 2 * 1 * (8 ÷ 8)
  ∧ memoryManaged (allocate 0 tile_2x2 ∅).1 = 1
  ∧ is_Some (data (allocate 0 tile_2x2 ∅).1).
Proof.
  destruct (allocate_capacity_and_ownership 0 tile_2x2 ∅)
    as (_ & Hd & H0 & _ & Hm & a & Ha & _).
  split; [rewrite H0 by done; rewrite Hd; [reflexivity|by vm_compute]|].
  split; [exact Hm|]. rewrite Ha. by eexists.
Defined.

(** C10.  [deallocate] of a null pointer changes nothing: neither a member
    of the tile, the two sizes included, nor the memory.  The two sizes
    are reset to zero when the pointer is not null: then a [deallocate]
    that returns has released the array and left every member but the two
    sizes as it was. *)
Theorem deallocate_null_is_noop (t : RawTile) (hp : gmap positive slot) :
  deallocate None t hp = Some (t, hp)
  ∧ ∀ a t' hp',
      deallocate (Some a) t hp = Some (t', hp') →
      capacity t' = 0 ∧ dataLength t' = 0
      ∧ t' = set_dataLength 0 (set_capacity 0 t)
      ∧ hp' = <[a := Freed]> hp.
Proof.
  split; [reflexivity|].
  intros a t' hp'. rewrite deallocate_eq. unfold delete_array.
  destruct (hp !! a) as [[ty bs|]|]; [|done|done].
  destruct (release_compatible ty (release_type t)); [|done].
  cbn [mbind option_bind]. by intros [= <- <-].
Qed.

(** C10, evaluated: the two branches at the 4 by 4 tile. *)
Lemma deallocate_null_is_noop_witness :
  deallocate None tile_4x4 heap_4x4 = Some (tile_4x4, heap_4x4)
  ∧ capacity tile_4x4 = 16 ∧ dataLength tile_4x4 = 16
  ∧ ∃ t' hp',
      deallocate (data tile_4x4) tile_4x4 heap_4x4 = Some (t', hp')
      ∧ capacity t' = 0 ∧ dataLength t' = 0.
Proof.
  destruct (deallocate_null_is_noop tile_4x4 heap_4x4) as [Hnull Hlive].
  split; [exact Hnull|]. split; [reflexivity|]. split; [reflexivity|].
  destruct (deallocate (data tile_4x4) tile_4x4 heap_4x4)
    as [[t' hp']|] eqn:Hrun; [|by vm_compute in Hrun].
  exists t', hp'. split; [reflexivity|].
  destruct (Hlive 1%positive t' hp' Hrun) as (Hc & Hd & _).
  by split.
Defined.

(** C6.  The claim asks for an empty buffer reference after [allocate]
    followed by [deallocate].  At a 2 by 2 tile of one 8 bit channel the
    two sizes are reset and the array is released, but [data] still holds
    the address of the released array; the destructor then releases it a
    second time. *)
Theorem deallocate_leaves_data_dangling :
  let '(t1, hp1) := allocate 0 tile_2x2 ∅ in
  ∃ a t2 hp2,
    deallocate (data t1) t1 hp1 = Some (t2, hp2)
    ∧ capacity t2 = 0 ∧ dataLength t2 = 0
    ∧ data t2 = Some a ∧ data t2 ≠ None
    ∧ hp2 !! a = Some Freed
    ∧ destructor t2 hp2 = None.
Proof.
  pose proof (allocate_then_deallocate 0 tile_2x2 ∅) as H.
  destruct (allocate 0 tile_2x2 ∅) as [t1 hp1].
  destruct H as (a & t2 & hp2 & H1 & Hd & Hc & Hl & Hm & Ha & Hf).
  exists a, t2, hp2. repeat split; try done.
  - by rewrite Ha.
  - unfold destructor. rewrite Ha, Hm. by rewrite deallocate_freed.
Qed.

(** ** Comparison *)

Section Comparison.

Implicit Types A B : RawTile.

Lemma op_eq_true A B : op_eq A B = 1 ↔ same_identity A B.
Proof.
  unfold op_eq, same_identity. case_match eqn:E.
  - rewrite !andb_true_iff, !bool_decide_eq_true in E. tauto.
  - split; [done|]. intros H. exfalso.
    rewrite <- not_true_iff_false in E. apply E.
    rewrite !andb_true_iff, !bool_decide_eq_true. tauto.
Qed.

Lemma op_eq_cases A B : op_eq A B = 1 ∨ op_eq A B = 0.
Proof. unfold op_eq. case_match; auto. Qed.

Lemma op_eq_false A B : op_eq A B = 0 ↔ ¬ same_identity A B.
Proof.
  rewrite <- op_eq_true. destruct (op_eq_cases A B) as [-> | ->]; naive_solver.
Qed.

End Comparison.

(** C5.  [A == B] holds exactly when the two tiles agree on [tileNum],
    [resolution], [hSequence], [vSequence], [compressionType], [quality]
    and [filename].  No other member matters: giving [B] any geometry,
    sample description, timestamp, sizes, ownership flag and buffer leaves
    the result as it is.  Changing one of the seven members of a tile
    equal to [A] gives a tile that is not equal to [A]. *)
Theorem equality_is_identity (A B : RawTile) :
  (op_eq A B ≠ 0 ↔ same_identity A B)
  ∧ (∀ w h c b st ts cap len mm d,
       op_eq A (with_payload w h c b st ts cap len mm d B) = op_eq A B)
  ∧ (op_eq A B ≠ 0 →
       (∀ v, v ≠ tileNum B → op_eq A (set_tileNum v B) = 0)
       ∧ (∀ v, v ≠ resolution B → op_eq A (set_resolution v B) = 0)
       ∧ (∀ v, v ≠ hSequence B → op_eq A (set_hSequence v B) = 0)
       ∧ (∀ v, v ≠ vSequence B → op_eq A (set_vSequence v B) = 0)
       ∧ (∀ v, v ≠ compressionType B →
               op_eq A (set_compressionType v B) = 0)
       ∧ (∀ v, v ≠ quality B → op_eq A (set_quality v B) = 0)
       ∧ (∀ v, v ≠ filename B → op_eq A (set_filename v B) = 0)).
Proof.
  split; [|split].
  - rewrite <- op_eq_true. destruct (op_eq_cases A B) as [-> | ->]; naive_solver.
  - done.
  - intros HAB.
    assert (same_identity A B) as (?&?&?&?&?&?&?).
    { apply op_eq_true. destruct (op_eq_cases A B); [done|congruence]. }
    repeat split; intros v Hv; apply op_eq_false;
      intros (?&?&?&?&?&?&?); simpl in *; congruence.
Qed.

(** C5, evaluated: two tiles with the same identity and different
    geometry and buffers are equal; another tile number makes them
    unequal. *)
Lemma equality_is_identity_witness :
  op_eq tile_2x2 (with_payload 7 9 3 16 FLOATINGPOINT 1 0 0 0 (Some 5%positive)
                    tile_2x2) = 1
  ∧ op_eq tile_2x2 (set_tileNum 4 tile_2x2) = 0.
Proof.
  destruct (equality_is_identity tile_2x2 tile_2x2) as (_ & Hp & Hc).
  split.
  - rewrite Hp. reflexivity.
  - apply Hc; [by vm_compute|by vm_compute].
Defined.

(** C9.  [A != B] holds exactly when [A == B] does not. *)
Theorem inequality_negates_equality (A B : RawTile) :
  (op_neq A B ≠ 0 ↔ ¬ op_eq A B ≠ 0)
  ∧ op_neq A B = 1 - op_eq A B.
Proof.
  unfold op_neq, op_eq. case_match; split; (done || naive_solver).
Qed.

(** ** Crop *)

Section Crop.

Implicit Types (t : RawTile) (hp : gmap positive slot) (bs : list cell).

(** The scanline loop copies [rows] lines of [dlen] bytes, reading them
    [slen] bytes apart, and touches nothing else. *)
Lemma crop_lines_spec (rows : nat) :
  ∀ d s doff soff dlen slen hp dty dbs sty sbs,
    d ≠ s →
    hp !! d = Some (Live dty dbs) → hp !! s = Some (Live sty sbs) →
    0 <= dlen → 0 <= slen → 0 <= doff → 0 <= soff →
    doff + Z.of_nat rows * dlen <= zlength dbs →
    (∀ i, 0 <= i < Z.of_nat rows → soff + i * slen + dlen <= zlength sbs) →
    ∃ dbs',
      crop_lines rows (Some (d, doff)) (Some (s, soff)) dlen slen hp
      = Some (<[d := Live dty dbs']> hp)
      ∧ length dbs' = length dbs
      ∧ (∀ i j, 0 <= i < Z.of_nat rows → 0 <= j < dlen →
           dbs' !! Z.to_nat (doff + i * dlen + j)
           = sbs !! Z.to_nat (soff + i * slen + j))
      ∧ (∀ k : nat,
           Z.of_nat k < doff ∨ doff + Z.of_nat rows * dlen <= Z.of_nat k →
           dbs' !! k = dbs !! k).
Proof.
  induction rows as [|rows IH];
    intros d s doff soff dlen slen hp dty dbs sty sbs
           Hne Hd Hs Hdl Hsl Hdo Hso Hdst Hsrc.
  - exists dbs. simpl. rewrite insert_id by done.
    split; [done|]. split; [done|]. split; [intros; lia|done].
  - assert (soff + dlen <= zlength sbs) as Hs0.
    { specialize (Hsrc 0). lia. }
    assert (doff + dlen <= zlength dbs) as Hd0 by nia.
    cbn [crop_lines ptr_add].
    erewrite memcpy_spec by done. cbn [mbind option_bind].
    set (dbs1 := write_bytes doff (read_bytes soff dlen sbs) dbs).
    destruct (IH d s (doff + dlen) (soff + slen) dlen slen
                 (<[d := Live dty dbs1]> hp) dty dbs1 sty sbs)
      as (dbs' & Hrun & Hlen & Hrows & Hout); try done.
    + apply lookup_insert_eq.
    + by rewrite lookup_insert_ne.
    + lia.
    + lia.
    + unfold dbs1. rewrite zlength_write_bytes. lia.
    + intros i Hi. specialize (Hsrc (i + 1)). lia.
    + exists dbs'. rewrite Hrun, insert_insert_eq.
      split; [done|]. split.
      { rewrite Hlen. apply length_write_bytes. }
      split.
      * intros i j Hi Hj. destruct (decide (i = 0)) as [->|Hi0].
        -- rewrite Hout by lia. unfold dbs1.
           rewrite lookup_copy_range by lia.
           rewrite decide_True by lia. f_equal. lia.
        -- specialize (Hrows (i - 1) j).
           replace (doff + dlen + (i - 1) * dlen + j)
             with (doff + i * dlen + j) in Hrows by lia.
           replace (soff + slen + (i - 1) * slen + j)
             with (soff + i * slen + j) in Hrows by lia.
           apply Hrows; lia.
      * intros k Hk. rewrite Hout by lia. unfold dbs1.
        rewrite lookup_copy_range by lia.
        rewrite decide_False; [done|lia].
Qed.

End Crop.

Section CropTheorem.

Implicit Types (t : RawTile) (hp : gmap positive slot) (bs : list cell).

Lemma elem_size_divides t x : (elem_size t | x * (bpc t ÷ 8)).
Proof.
  unfold elem_size.
  destruct (bpc t =? 32) eqn:E32; [apply Z.eqb_eq in E32 as ->; by exists x|].
  destruct (bpc t =? 16) eqn:E16; [apply Z.eqb_eq in E16 as ->; by exists x|].
  apply Z.divide_1_l.
Qed.

Lemma block_bytes_Some p hp bs :
  block_bytes p hp = Some bs →
  ∃ a ty, p = Some a ∧ hp !! a = Some (Live ty bs).
Proof.
  unfold block_bytes. intros H. repeat case_match; simplify_eq. eauto.
Qed.

Lemma block_type_Some p hp ty :
  block_type p hp = Some ty →
  ∃ a bs, p = Some a ∧ hp !! a = Some (Live ty bs).
Proof.
  unfold block_type. intros H. repeat case_match; simplify_eq. eauto.
Qed.

(** The release of the old buffer at the end of [crop] and [triplicate]:
    it happens exactly when the tile owned the buffer, and leaves the new
    array alone. *)
Lemma release_old_buffer (mm : Z) (s a : positive) t1 hp ty sbs blk :
  a ≠ s → hp !! s = Some (Live ty sbs) → hp !! a = Some blk →
  (mm ≠ 0 → release_compatible ty (release_type t1) = true) →
  ∃ t2 hp',
    (if mm =? 0 then Some (t1, hp) else deallocate (Some s) t1 hp)
    = Some (t2, hp')
    ∧ hp' !! a = Some blk
    ∧ hp' = (if mm =? 0 then hp else <[s := Freed]> hp)
    ∧ ∀ len, set_dataLength len (set_capacity len t2)
             = set_dataLength len (set_capacity len t1).
Proof.
  intros Hne Hs Ha Hc. destruct (mm =? 0) eqn:Emm.
  - by exists t1, hp.
  - apply Z.eqb_neq in Emm.
    erewrite deallocate_live; [|exact Hs|by apply Hc].
    eexists _, _. split; [done|].
    split; [by rewrite lookup_insert_ne|]. split; done.
Qed.

(** The sizes [crop] computes do not wrap around when the source buffer
    fits in 32 bits. *)
Lemma crop_sizes (P w h W H : Z) :
  0 <= P → 0 <= w <= W → 0 <= h <= H →
  0 <= w * P <= W * P
  ∧ 0 <= h * (w * P) <= H * (W * P)
  ∧ (1 <= H → W * P <= H * (W * P)).
Proof.
  intros HP Hw Hh.
  assert (0 <= w * P) by (apply Z.mul_nonneg_nonneg; lia).
  assert (w * P <= W * P) by (apply Z.mul_le_mono_nonneg_r; lia).
  assert (0 <= W * P) by lia.
  assert (h * (w * P) <= H * (W * P)) by (apply Z.mul_le_mono_nonneg; lia).
  assert (0 <= h * (w * P)) by (apply Z.mul_nonneg_nonneg; lia).
  repeat split; try lia.
  intros. replace (W * P) with (1 * (W * P)) at 1 by lia.
  apply Z.mul_le_mono_nonneg_r; lia.
Qed.

(** [crop] under the conditions of its contract, with the new buffer made
    explicit. *)
Lemma crop_run t hp src w h :
  is_uint32 (width t) → is_uint32 (height t) →
  0 <= channels t → 0 <= bpc t →
  block_bytes (data t) hp = Some src →
  height t * (width t * channels t * (bpc t ÷ 8)) <= zlength src →
  height t * (width t * channels t * (bpc t ÷ 8)) < 2 ^ 32 →
  releasable t hp →
  0 <= w <= width t → 0 <= h <= height t →
  let len := w * h * channels t * (bpc t ÷ 8) in
  let dlen := w * channels t * (bpc t ÷ 8) in
  let slen := width t * channels t * (bpc t ÷ 8) in
  ∃ a s out hp',
    crop w h t hp
    = Some (set_height h (set_width w (set_dataLength len (set_capacity len
              (set_memoryManaged 1 (set_data (Some a) t))))), hp')
    ∧ data t = Some s ∧ a ≠ s
    ∧ hp !! a = None
    ∧ hp' = (if memoryManaged t =? 0 then <[a := Live (alloc_type t) out]> hp
             else <[s := Freed]> (<[a := Live (alloc_type t) out]> hp))
    ∧ zlength out = alloc_bytes t (requested_size len t)
    ∧ len <= zlength out
    ∧ (∀ i j, 0 <= i < h → 0 <= j < dlen →
         out !! Z.to_nat (i * dlen + j) = src !! Z.to_nat (i * slen + j)).
Proof.
  intros Hw Hh Hc Hb Hsrc Hhold Hfit Hrel Hw' Hh' len dlen slen.
  pose proof (quot8_nonneg _ Hb) as Hq.
  destruct (block_bytes_Some _ _ _ Hsrc) as (s & sty & Hdata & Hs).
  unfold is_uint32, UINT32_MOD in *.
  set (P := channels t * (bpc t ÷ 8)).
  assert (0 <= P) as HP by (apply Z.mul_nonneg_nonneg; lia).
  destruct (crop_sizes P w h (width t) (height t) HP Hw' Hh')
    as (Hd1 & Hl1 & Hs1).
  assert (dlen = w * P) as Edlen by (unfold dlen, P; lia).
  assert (slen = width t * P) as Eslen by (unfold slen, P; lia).
  assert (len = h * (w * P)) as Elen by (unfold len, P; lia).
  assert (height t * (width t * channels t * (bpc t ÷ 8))
          = height t * (width t * P)) as Etot by (unfold P; lia).
  rewrite Etot in Hhold, Hfit.
  assert (byte_size w h (channels t) (bpc t) = len) as Hbs.
  { apply byte_size_exact. unfold is_uint32, UINT32_MOD. fold len. lia. }
  unfold crop. rewrite Hbs, allocate_eq. tile_simpl.
  set (a := fresh (dom hp)).
  set (sz := requested_size len t).
  assert (hp !! a = None) as Ha by apply fresh_unused.
  assert (a ≠ s) as Hne by (intros ->; congruence).
  pose proof (byte_size_range (width t) (height t) (channels t) (bpc t))
    as Hr. unfold is_uint32 in Hr.
  assert (0 <= sz) as Hsz.
  { unfold sz, requested_size, default_size. case_match; lia. }
  assert (len <= alloc_bytes t sz) as Hcap.
  { unfold sz, requested_size, default_size. destruct (len =? 0) eqn:E.
    - apply Z.eqb_eq in E. rewrite E. apply alloc_bytes_le. lia.
    - rewrite alloc_bytes_exact; [lia|].
      unfold len. apply elem_size_divides. }
  set (fresh_bytes := replicate (Z.to_nat (alloc_bytes t sz)) (None : cell)).
  set (t1 := set_capacity sz (set_memoryManaged 1 (set_data (Some a) t))).
  assert (zlength fresh_bytes = alloc_bytes t sz) as Hfresh.
  { apply zlength_replicate. lia. }
  rewrite Hdata. cbn [byte_cast].
  assert (∃ out,
    crop_lines (Z.to_nat h) (Some (a, 0)) (Some (s, 0))
      (line_size w (channels t) (bpc t))
      (line_size (width t) (channels t) (bpc t))
      (<[a := Live (alloc_type t) fresh_bytes]> hp)
    = Some (<[a := Live (alloc_type t) out]> hp)
    ∧ length out = length fresh_bytes
    ∧ (∀ i j, 0 <= i < h → 0 <= j < dlen →
         out !! Z.to_nat (i * dlen + j) = src !! Z.to_nat (i * slen + j)))
    as (out & -> & Hlenout & Hrows).
  { destruct (decide (h = 0)) as [->|Hh0].
    - exists fresh_bytes. split; [done|]. split; [done|]. intros; lia.
    - assert (1 <= height t) as H1 by lia. specialize (Hs1 H1).
      assert (line_size w (channels t) (bpc t) = dlen) as ->.
      { apply line_size_exact. unfold is_uint32, UINT32_MOD. fold dlen. lia. }
      assert (line_size (width t) (channels t) (bpc t) = slen) as ->.
      { apply line_size_exact. unfold is_uint32, UINT32_MOD. fold slen. lia. }
      destruct (crop_lines_spec (Z.to_nat h) a s 0 0 dlen slen
                  (<[a := Live (alloc_type t) fresh_bytes]> hp)
                  (alloc_type t) fresh_bytes sty src)
        as (out & Hrun & Hlenout & Hrows & _); try done; try lia.
      + apply lookup_insert_eq.
      + by rewrite lookup_insert_ne.
      + intros i Hi. rewrite Z2Nat.id in Hi by lia.
        assert ((i + 1) * slen <= height t * slen)
          by (apply Z.mul_le_mono_nonneg_r; lia).
        rewrite Edlen. rewrite Eslen in *. lia.
      + exists out. rewrite Hrun, insert_insert_eq.
        split; [done|]. split; [done|].
        intros i j Hi Hj. specialize (Hrows i j).
        rewrite !Z.add_0_l in Hrows. apply Hrows; lia. }
  cbn [mbind option_bind].
  destruct (release_old_buffer (memoryManaged t) s a t1
              (<[a := Live (alloc_type t) out]> hp) sty src
              (Live (alloc_type t) out))
    as (t2 & hp3 & -> & Hnew & Hhp3 & Ht2); try done.
  { by rewrite lookup_insert_ne. }
  { apply lookup_insert_eq. }
  { intros Hmm. destruct (Hrel Hmm) as (ty & Hty & Hcompat).
    destruct (block_type_Some _ _ _ Hty) as (s' & bs' & Hs' & Hlive).
    assert (s' = s) as -> by congruence.
    assert (ty = sty) as -> by congruence. exact Hcompat. }
  cbn [mbind option_bind]. rewrite Ht2.
  exists a, s, out, hp3.
  split; [done|]. split; [done|]. split; [done|]. split; [done|].
  split; [done|].
  assert (zlength out = alloc_bytes t sz) as Hzout.
  { unfold zlength in *. lia. }
  split; [done|]. split; [lia|]. done.
Qed.


Lemma scanline_of_rows (blk src : list cell) (dlen slen i : Z) :
  0 <= i → 0 <= dlen <= slen →
  (∀ j, 0 <= j < dlen →
     blk !! Z.to_nat (i * dlen + j) = src !! Z.to_nat (i * slen + j)) →
  scanline blk dlen i = take (Z.to_nat dlen) (scanline src slen i).
Proof.
  intros Hi Hd Hrows. unfold scanline, read_bytes.
  assert (0 <= i * dlen) by (apply Z.mul_nonneg_nonneg; lia).
  assert (0 <= i * slen) by (apply Z.mul_nonneg_nonneg; lia).
  apply list_eq. intros k.
  destruct (decide (k < Z.to_nat dlen)%nat) as [Hk|Hk].
  - rewrite !lookup_take_lt by lia. rewrite !lookup_drop.
    specialize (Hrows (Z.of_nat k)).
    replace (Z.to_nat (i * dlen) + k)%nat
      with (Z.to_nat (i * dlen + Z.of_nat k)) by lia.
    replace (Z.to_nat (i * slen) + k)%nat
      with (Z.to_nat (i * slen + Z.of_nat k)) by lia.
    apply Hrows. lia.
  - by rewrite !lookup_take_ge by lia.
Qed.

(** Scanlines that are known one by one give the whole populated part. *)
Lemma take_rows (blk : list cell) (dlen : Z) (f : Z → list cell)
                (rows : nat) :
  0 <= dlen →
  (∀ i, 0 <= i < Z.of_nat rows → scanline blk dlen i = f i) →
  take (Z.to_nat (Z.of_nat rows * dlen)) blk
  = concat (f <$> seqZ 0 (Z.of_nat rows)).
Proof.
  intros Hd. induction rows as [|rows IH]; intros Hrows.
  - done.
  - rewrite seqZ_S, fmap_app, concat_app. cbn [fmap list_fmap concat].
    rewrite app_nil_r, Z.add_0_l.
    rewrite <- IH by (intros i Hi; apply Hrows; lia).
    rewrite <- (Hrows (Z.of_nat rows)) by lia.
    unfold scanline, read_bytes. rewrite take_take_drop. f_equal. nia.
Qed.

End CropTheorem.

(** C2.  Let the buffer of a tile hold [height] scanlines of
    [width * channels * (bpc/8)] bytes each, in a live array that the tile
    may release if it owns it, the byte size of the tile being a value of
    [uint32_t] like its members, and let [w <= width] and [h <= height].  Then [crop( w, h )]
    succeeds; afterwards [width = w], [height = h] and
    [capacity = dataLength = w * h * channels * (bpc/8)]; the tile owns a
    new buffer, whose [dataLength] bytes are the top-left sub-rectangle of
    the old one: scanline by scanline and top to bottom, the first
    [w * channels * (bpc/8)] bytes of each of the first [h] scanlines.
    The new array has exactly [dataLength] bytes unless that is zero.  The
    old array is released if the tile owned it, and is as before
    otherwise. *)
Theorem crop_keeps_top_left_rectangle
    (t : RawTile) (hp : gmap positive slot) (src : list cell) (w h : Z) :
  is_uint32 (width t) → is_uint32 (height t) →
  0 <= channels t → 0 <= bpc t →
  block_bytes (data t) hp = Some src →
  height t * (width t * channels t * (bpc t ÷ 8)) <= zlength src →
  is_uint32 (height t * (width t * channels t * (bpc t ÷ 8))) →
  releasable t hp →
  0 <= w <= width t → 0 <= h <= height t →
  ∃ t' hp' blk,
    crop w h t hp = Some (t', hp')
    ∧ width t' = w ∧ height t' = h
    ∧ capacity t' = w * h * channels t * (bpc t ÷ 8)
    ∧ dataLength t' = w * h * channels t * (bpc t ÷ 8)
    ∧ channels t' = channels t ∧ bpc t' = bpc t
    ∧ sampleType t' = sampleType t
    ∧ memoryManaged t' = 1
    ∧ block_bytes (data t') hp' = Some blk
    ∧ dataLength t' <= zlength blk
    ∧ (dataLength t' ≠ 0 → zlength blk = dataLength t')
    ∧ (∀ i, 0 <= i < h →
         scanline blk (w * channels t * (bpc t ÷ 8)) i
         = take (Z.to_nat (w * channels t * (bpc t ÷ 8)))
                (scanline src (width t * channels t * (bpc t ÷ 8)) i))
    ∧ take (Z.to_nat (dataLength t')) blk
      = top_left_rectangle src (width t * channels t * (bpc t ÷ 8))
                           (w * channels t * (bpc t ÷ 8)) h
    ∧ block_bytes (data t) hp'
      = (if memoryManaged t =? 0 then Some src else None).
Proof.
  intros Hw Hh Hc Hb Hsrc Hhold [_ Hfit] Hrel Hw' Hh'.
  destruct (crop_run t hp src w h) as
    (a & s & out & hp' & Hrun & Hdata & Hne & Ha & Hhp' & Hzout & Hlen & Hrows);
    try done.
  destruct (block_bytes_Some _ _ _ Hsrc) as (s' & sty & Hdata' & Hs).
  assert (s' = s) as -> by congruence.
  pose proof (quot8_nonneg _ Hb).
  assert (0 <= channels t * (bpc t ÷ 8)) by (apply Z.mul_nonneg_nonneg; lia).
  assert (0 <= w * channels t * (bpc t ÷ 8) <= width t * channels t * (bpc t ÷ 8))
    as Hlines.
  { rewrite <- !Z.mul_assoc. split.
    - apply Z.mul_nonneg_nonneg; lia.
    - apply Z.mul_le_mono_nonneg_r; lia. }
  assert (∀ i, 0 <= i < h →
            scanline out (w * channels t * (bpc t ÷ 8)) i
            = take (Z.to_nat (w * channels t * (bpc t ÷ 8)))
                   (scanline src (width t * channels t * (bpc t ÷ 8)) i))
    as Hscan.
  { intros i Hi. apply scanline_of_rows; [lia|done|].
    intros j Hj. by apply Hrows. }
  eexists _, hp', out. split; [exact Hrun|]. tile_simpl.
  repeat (split; [done|]).
  split.
  { unfold block_bytes. rewrite Hhp'. case_match.
    - by rewrite lookup_insert_eq.
    - rewrite lookup_insert_ne by done. by rewrite lookup_insert_eq. }
  split; [done|]. split.
  { intros Hnz. rewrite Hzout. unfold requested_size.
    rewrite (proj2 (Z.eqb_neq _ 0) Hnz).
    apply alloc_bytes_exact, elem_size_divides. }
  split; [done|]. split.
  { unfold top_left_rectangle.
    replace (w * h * channels t * (bpc t ÷ 8))
      with (Z.of_nat (Z.to_nat h) * (w * channels t * (bpc t ÷ 8))) by lia.
    replace h with (Z.of_nat (Z.to_nat h)) at 2 by lia.
    apply take_rows; [lia|]. intros i Hi. apply Hscan. lia. }
  rewrite Hdata, Hhp'. unfold block_bytes. case_match.
  - by rewrite lookup_insert_ne, Hs.
  - by rewrite lookup_insert_eq.
Qed.

(** C2 at the 4 by 4 tile of the specification: [crop( 2, 2 )] yields the
    scanlines [0,1] and [4,5]. *)
Lemma crop_keeps_top_left_rectangle_witness :
  ∃ t' hp' blk,
    crop 2 2 tile_4x4 heap_4x4 = Some (t', hp')
    ∧ block_bytes (data t') hp' = Some blk
    ∧ width t' = 2 ∧ height t' = 2 ∧ capacity t' = 4 ∧ dataLength t' = 4
    ∧ zlength blk = 4
    ∧ scanline blk 2 0 = [Some 0; Some 1]
    ∧ scanline blk 2 1 = [Some 4; Some 5]
    ∧ take 4 blk = [Some 0; Some 1; Some 4; Some 5].
Proof.
  destruct (crop_keeps_top_left_rectangle tile_4x4 heap_4x4 bytes_4x4 2 2)
    as (t' & hp' & blk & Hrun & Hw & Hh & Hc & Hd & _ & _ & _ & _ & Hblk & _
        & Hz & Hrows & Hall & _).
  - by vm_compute.
  - by vm_compute.
  - by vm_compute.
  - by vm_compute.
  - reflexivity.
  - by vm_compute.
  - by vm_compute.
  - intros _. exists T_uchar. split; reflexivity.
  - by vm_compute.
  - by vm_compute.
  - exists t', hp', blk.
    split; [exact Hrun|]. split; [exact Hblk|].
    split; [exact Hw|]. split; [exact Hh|].
    split; [exact Hc|]. split; [exact Hd|].
    split; [rewrite Hz; rewrite Hd; by vm_compute|].
    split; [exact (Hrows 0 ltac:(lia))|].
    split; [exact (Hrows 1 ltac:(lia))|].
    rewrite Hd in Hall. exact Hall.
Defined.

(** ** Triplicate *)

Section Triplicate.

Implicit Types (t : RawTile) (hp : gmap positive slot) (bs : list cell).

(** The element type of the assignment in the loops has the size of the
    element type of the allocation. *)
Lemma triplicate_sample_eq t buffer n k i hp :
  ∃ ty, sizeof ty = elem_size t
        ∧ triplicate_sample t buffer n k i hp
          = copy_elem ty (data t) (uadd n k) buffer i hp.
Proof.
  unfold triplicate_sample, elem_size.
  repeat case_match; eexists; (split; [|done]); done.
Qed.

Lemma uadd_small a b : is_uint32 (a + b) → uadd a b = a + b.
Proof. apply to_uint32_small. Qed.

Lemma triplicate_sample_spec t a s n k i hp dty dbs sty sbs :
  data t = Some a → a ≠ s →
  hp !! a = Some (Live dty dbs) → hp !! s = Some (Live sty sbs) →
  0 <= i → 0 <= n → 0 <= k → n + k < 2 ^ 32 →
  (n + k + 1) * elem_size t <= zlength dbs →
  (i + 1) * elem_size t <= zlength sbs →
  ∃ dbs',
    triplicate_sample t (Some s) n k i hp = Some (<[a := Live dty dbs']> hp)
    ∧ length dbs' = length dbs
    ∧ ∀ x : nat,
        dbs' !! x
        = if decide ((n + k) * elem_size t <= Z.of_nat x
                     < (n + k) * elem_size t + elem_size t)
          then sbs !! Z.to_nat (i * elem_size t
                                + (Z.of_nat x - (n + k) * elem_size t))
          else dbs !! x.
Proof.
  intros Hdata Hne Ha Hs Hi Hn Hk Hnk Hdst Hsrc.
  destruct (triplicate_sample_eq t (Some s) n k i hp) as (ty & Hsz & ->).
  pose proof (elem_size_pos t).
  rewrite uadd_small by (unfold is_uint32, UINT32_MOD; lia).
  rewrite Hdata. erewrite copy_elem_spec; try done; try lia;
    rewrite ?Hsz; try done.
  eexists. split; [done|]. split; [apply length_write_bytes|].
  intros x. apply lookup_copy_range; lia.
Qed.

(** One pixel: three elements of the destination receive element [i] of
    the source. *)
Lemma triplicate_pixel_spec t a s n i hp dty dbs sty sbs :
  data t = Some a → a ≠ s →
  hp !! a = Some (Live dty dbs) → hp !! s = Some (Live sty sbs) →
  0 <= i → 0 <= n → n + 3 <= 2 ^ 32 →
  (n + 3) * elem_size t <= zlength dbs →
  (i + 1) * elem_size t <= zlength sbs →
  ∃ dbs',
    triplicate_pixel t (Some s) n i hp = Some (<[a := Live dty dbs']> hp)
    ∧ length dbs' = length dbs
    ∧ (∀ k b, 0 <= k < 3 → 0 <= b < elem_size t →
         dbs' !! Z.to_nat ((n + k) * elem_size t + b)
         = sbs !! Z.to_nat (i * elem_size t + b))
    ∧ (∀ x : nat,
         Z.of_nat x < n * elem_size t ∨ (n + 3) * elem_size t <= Z.of_nat x →
         dbs' !! x = dbs !! x).
Proof.
  intros Hdata Hne Ha Hs Hi Hn Hn3 Hdst Hsrc.
  pose proof (elem_size_pos t) as Hsz. unfold triplicate_pixel.
  destruct (triplicate_sample_spec t a s n 0 i hp dty dbs sty sbs)
    as (d0 & -> & Hl0 & H0); try done; try lia.
  cbn [mbind option_bind].
  destruct (triplicate_sample_spec t a s n 1 i
              (<[a := Live dty d0]> hp) dty d0 sty sbs)
    as (d1 & -> & Hl1 & H1); try done; try lia.
  { apply lookup_insert_eq. }
  { by rewrite lookup_insert_ne. }
  { unfold zlength in *. lia. }
  cbn [mbind option_bind]. rewrite insert_insert_eq.
  destruct (triplicate_sample_spec t a s n 2 i
              (<[a := Live dty d1]> hp) dty d1 sty sbs)
    as (d2 & -> & Hl2 & H2); try done; try lia.
  { apply lookup_insert_eq. }
  { by rewrite lookup_insert_ne. }
  { unfold zlength in *. lia. }
  rewrite insert_insert_eq. exists d2.
  split; [done|]. split; [lia|]. split.
  - intros k b Hk Hb.
    assert (0 <= n * elem_size t) by (apply Z.mul_nonneg_nonneg; lia).
    assert (0 <= i * elem_size t) by (apply Z.mul_nonneg_nonneg; lia).
    assert (k = 0 ∨ k = 1 ∨ k = 2) as [-> | [-> | ->]] by lia.
    + rewrite H2, decide_False by lia. rewrite H1, decide_False by lia.
      rewrite H0, decide_True by lia. f_equal. lia.
    + rewrite H2, decide_False by lia. rewrite H1, decide_True by lia.
      f_equal. lia.
    + rewrite H2, decide_True by lia. f_equal. lia.
  - intros x Hx.
    rewrite H2, decide_False by lia. rewrite H1, decide_False by lia.
    rewrite H0, decide_False by lia. done.
Qed.

(** The outer loop, started at pixel [i] with [n = 3 * i]. *)
Lemma triplicate_pixels_spec t a s sty sbs dty (cnt : nat) :
  ∀ i hp dbs,
    data t = Some a → a ≠ s →
    hp !! a = Some (Live dty dbs) → hp !! s = Some (Live sty sbs) →
    0 <= i → 3 * (i + Z.of_nat cnt) < 2 ^ 32 →
    3 * (i + Z.of_nat cnt) * elem_size t <= zlength dbs →
    (i + Z.of_nat cnt) * elem_size t <= zlength sbs →
    ∃ dbs',
      triplicate_pixels cnt t (Some s) (3 * i) i hp
      = Some (<[a := Live dty dbs']> hp)
      ∧ length dbs' = length dbs
      ∧ (∀ p k b, i <= p < i + Z.of_nat cnt → 0 <= k < 3 →
           0 <= b < elem_size t →
           dbs' !! Z.to_nat ((3 * p + k) * elem_size t + b)
           = sbs !! Z.to_nat (p * elem_size t + b))
      ∧ (∀ x : nat,
           Z.of_nat x < 3 * i * elem_size t
           ∨ 3 * (i + Z.of_nat cnt) * elem_size t <= Z.of_nat x →
           dbs' !! x = dbs !! x).
Proof.
  pose proof (elem_size_pos t) as Hsz.
  induction cnt as [|cnt IH]; intros i hp dbs Hdata Hne Ha Hs Hi Hfit Hdst Hsrc.
  - exists dbs. simpl. rewrite insert_id by done.
    split; [done|]. split; [done|]. split; [intros; lia|done].
  - cbn [triplicate_pixels].
    destruct (triplicate_pixel_spec t a s (3 * i) i hp dty dbs sty sbs)
      as (d1 & -> & Hl1 & Hpix & Hout1); try done; try lia.
    cbn [mbind option_bind].
    rewrite uadd_small by (unfold is_uint32, UINT32_MOD; lia).
    replace (3 * i + 3) with (3 * (i + 1)) by lia.
    destruct (IH (i + 1) (<[a := Live dty d1]> hp) d1)
      as (d2 & -> & Hl2 & Hrest & Hout2); try done; try lia.
    { apply lookup_insert_eq. }
    { by rewrite lookup_insert_ne. }
    { unfold zlength in *. lia. }
    rewrite insert_insert_eq. exists d2.
    split; [done|]. split; [lia|]. split.
    + intros p k b Hp Hk Hb. destruct (decide (p = i)) as [->|Hpi].
      * assert (0 <= i * elem_size t) by (apply Z.mul_nonneg_nonneg; lia).
        rewrite Hout2.
        -- replace (3 * i + k) with (3 * i + k) by done. apply Hpix; lia.
        -- left. assert (k = 0 ∨ k = 1 ∨ k = 2) as [-> | [-> | ->]] by lia;
             lia.
      * apply Hrest; lia.
    + intros x Hx. rewrite Hout2 by lia. apply Hout1. lia.
Qed.

End Triplicate.

Section TriplicateTheorem.

Implicit Types (t : RawTile) (hp : gmap positive slot) (bs : list cell).

Lemma read_bytes_ext (blk src : list cell) (o1 o2 n : Z) :
  0 <= o1 → 0 <= o2 →
  (∀ b, 0 <= b < n → blk !! Z.to_nat (o1 + b) = src !! Z.to_nat (o2 + b)) →
  read_bytes o1 n blk = read_bytes o2 n src.
Proof.
  intros H1 H2 Hb. unfold read_bytes. apply list_eq. intros k.
  destruct (decide (k < Z.to_nat n)%nat) as [Hk|Hk].
  - rewrite !lookup_take_lt by lia. rewrite !lookup_drop.
    specialize (Hb (Z.of_nat k)).
    replace (Z.to_nat o1 + k)%nat with (Z.to_nat (o1 + Z.of_nat k)) by lia.
    replace (Z.to_nat o2 + k)%nat with (Z.to_nat (o2 + Z.of_nat k)) by lia.
    apply Hb. lia.
  - by rewrite !lookup_take_ge by lia.
Qed.

Lemma elem_size_le_quot t : 8 <= bpc t → elem_size t <= bpc t ÷ 8.
Proof.
  intros Hb. unfold elem_size.
  destruct (bpc t =? 32) eqn:E32; [apply Z.eqb_eq in E32 as ->; by vm_compute|].
  destruct (bpc t =? 16) eqn:E16; [apply Z.eqb_eq in E16 as ->; by vm_compute|].
  assert (8 ÷ 8 <= bpc t ÷ 8) by (apply Z.quot_le_mono; lia).
  change (8 ÷ 8) with 1 in *. lia.
Qed.

(** [triplicate] on a tile of one channel, with the new buffer made
    explicit. *)
Lemma triplicate_run t hp src :
  channels t = 1 →
  is_uint32 (width t) → is_uint32 (height t) → 8 <= bpc t →
  block_bytes (data t) hp = Some src →
  width t * height t * elem_size t <= zlength src →
  width t * height t * 3 * (bpc t ÷ 8) < 2 ^ 32 →
  releasable t hp →
  let N := width t * height t in
  ∃ a s out hp',
    triplicate t hp
    = Some (set_dataLength N (set_capacity N
              (set_memoryManaged 1 (set_data (Some a) (set_channels 3 t)))),
            hp')
    ∧ data t = Some s ∧ a ≠ s
    ∧ hp !! a = None
    ∧ hp' = (if memoryManaged t =? 0 then <[a := Live (alloc_type t) out]> hp
             else <[s := Freed]> (<[a := Live (alloc_type t) out]> hp))
    ∧ zlength out = N * 3 * (bpc t ÷ 8)
    ∧ (∀ p k b, 0 <= p < N → 0 <= k < 3 → 0 <= b < elem_size t →
         out !! Z.to_nat ((3 * p + k) * elem_size t + b)
         = src !! Z.to_nat (p * elem_size t + b)).
Proof.
  intros Hch Hw Hh Hb Hsrc Hhold Hfit Hrel N.
  destruct (block_bytes_Some _ _ _ Hsrc) as (s & sty & Hdata & Hs).
  pose proof (elem_size_pos t) as Hsz.
  pose proof (elem_size_le_quot t Hb) as Hq.
  unfold is_uint32, UINT32_MOD in *.
  assert (0 <= N) as HN by (apply Z.mul_nonneg_nonneg; lia).
  assert (N * 3 * 1 <= N * 3 * (bpc t ÷ 8)) as HN3
    by (apply Z.mul_le_mono_nonneg_l; lia).
  assert (N * 3 * elem_size t <= N * 3 * (bpc t ÷ 8)) as HNsz
    by (apply Z.mul_le_mono_nonneg_l; lia).
  unfold triplicate. rewrite Hch. cbn [Z.eqb Pos.eqb negb].
  rewrite allocate_eq. tile_simpl.
  set (a := fresh (dom hp)).
  assert (hp !! a = None) as Ha by apply fresh_unused.
  assert (a ≠ s) as Hne by (intros ->; congruence).
  set (t0 := set_channels 3 t).
  assert (requested_size 0 t0 = N * 3 * (bpc t ÷ 8)) as ->.
  { unfold requested_size, default_size, t0. tile_simpl. cbn [Z.eqb].
    apply byte_size_exact. unfold is_uint32, UINT32_MOD. fold N. lia. }
  change (alloc_bytes t0 (N * 3 * (bpc t ÷ 8)))
    with (alloc_bytes t (N * 3 * (bpc t ÷ 8))).
  change (alloc_type t0) with (alloc_type t).
  rewrite alloc_bytes_exact by apply elem_size_divides.
  set (fresh_bytes := replicate (Z.to_nat (N * 3 * (bpc t ÷ 8))) (None : cell)).
  assert (zlength fresh_bytes = N * 3 * (bpc t ÷ 8)) as Hfresh.
  { apply zlength_replicate. lia. }
  set (t1 := set_capacity (N * 3 * (bpc t ÷ 8))
               (set_memoryManaged 1 (set_data (Some a) t0))).
  assert (umul (width t) (height t) = N) as ->.
  { apply to_uint32_small. unfold is_uint32, UINT32_MOD. fold N. lia. }
  rewrite Hdata.
  destruct (triplicate_pixels_spec t1 a s sty src (alloc_type t)
              (Z.to_nat N) 0 (<[a := Live (alloc_type t) fresh_bytes]> hp)
              fresh_bytes)
    as (out & Hrun & Hlen & Hpix & _); try done.
  { apply lookup_insert_eq. }
  { by rewrite lookup_insert_ne. }
  { lia. }
  { change (elem_size t1) with (elem_size t). lia. }
  { change (elem_size t1) with (elem_size t). lia. }
  change (3 * 0) with 0 in Hrun. rewrite Hrun, insert_insert_eq.
  cbn [mbind option_bind].
  destruct (release_old_buffer (memoryManaged t) s a t1
              (<[a := Live (alloc_type t) out]> hp) sty src
              (Live (alloc_type t) out))
    as (t2 & hp3 & -> & Hnew & Hhp3 & Ht2); try done.
  { by rewrite lookup_insert_ne. }
  { apply lookup_insert_eq. }
  { intros Hmm. destruct (Hrel Hmm) as (ty & Hty & Hcompat).
    destruct (block_type_Some _ _ _ Hty) as (s' & bs' & Hs' & Hlive).
    assert (s' = s) as -> by congruence.
    assert (ty = sty) as -> by congruence. exact Hcompat. }
  cbn [mbind option_bind]. rewrite Ht2.
  exists a, s, out, hp3.
  split; [done|]. split; [done|]. split; [done|]. split; [done|].
  split; [done|]. split; [unfold zlength in *; lia|].
  intros p k b Hp Hk Hb'. change (elem_size t1) with (elem_size t) in Hpix.
  apply Hpix; lia.
Qed.

End TriplicateTheorem.

(** C3.  On a tile of one channel whose buffer holds [N = width * height]
    elements of the type selected by [bpc] and [sampleType], in a live
    array the tile may release if it owns it, the byte size of three
    channels being a value of [uint32_t], [triplicate()] succeeds: the
    tile has three channels and the same width and height; it owns a new
    buffer, an array of the same element type holding [N] pixels of three
    channels; and the three elements of pixel [i] all equal element [i] of
    the old buffer, for every [i].  The old array is released if the tile
    owned it, and is as before otherwise.  On a tile whose channel count
    is not one [triplicate()] returns at once, leaving tile and memory as
    they are. *)
Theorem triplicate_spreads_each_sample (t : RawTile)
                                       (hp : gmap positive slot) :
  (channels t ≠ 1 → triplicate t hp = Some (t, hp))
  ∧ ∀ src,
      channels t = 1 →
      is_uint32 (width t) → is_uint32 (height t) → 8 <= bpc t →
      block_bytes (data t) hp = Some src →
      width t * height t * elem_size t <= zlength src →
      is_uint32 (width t * height t * 3 * (bpc t ÷ 8)) →
      releasable t hp →
      ∃ t' hp' blk,
        triplicate t hp = Some (t', hp')
        ∧ channels t' = 3
        ∧ width t' = width t ∧ height t' = height t
        ∧ bpc t' = bpc t ∧ sampleType t' = sampleType t
        ∧ memoryManaged t' = 1
        ∧ block_bytes (data t') hp' = Some blk
        ∧ block_type (data t') hp' = Some (alloc_type t)
        ∧ zlength blk = width t * height t * 3 * (bpc t ÷ 8)
        ∧ (∀ i k, 0 <= i < width t * height t → 0 <= k < 3 →
             element blk (elem_size t) (3 * i + k)
             = element src (elem_size t) i)
        ∧ block_bytes (data t) hp'
          = (if memoryManaged t =? 0 then Some src else None).
Proof.
  split.
  - intros Hch. unfold triplicate.
    by rewrite (proj2 (Z.eqb_neq _ _) Hch).
  - intros src Hch Hw Hh Hb Hsrc Hhold [_ Hfit] Hrel.
    destruct (triplicate_run t hp src) as
      (a & s & out & hp' & Hrun & Hdata & Hne & Ha & Hhp' & Hzout & Hpix);
      try done.
    eexists _, hp', out. split; [exact Hrun|]. tile_simpl.
    repeat (split; [done|]).
    assert (hp' !! a = Some (Live (alloc_type t) out)) as Hnew.
    { rewrite Hhp'. case_match.
      - by rewrite lookup_insert_eq.
      - rewrite lookup_insert_ne by done. by rewrite lookup_insert_eq. }
    split; [unfold block_bytes; by rewrite Hnew|].
    split; [unfold block_type; by rewrite Hnew|].
    split; [done|]. split.
    + intros i k Hi Hk. unfold element. pose proof (elem_size_pos t).
      apply read_bytes_ext.
      * apply Z.mul_nonneg_nonneg; lia.
      * apply Z.mul_nonneg_nonneg; lia.
      * intros b Hb'. by apply Hpix.
    + destruct (block_bytes_Some _ _ _ Hsrc) as (s' & sty & Hdata' & Hs).
      assert (s' = s) as -> by congruence.
      rewrite Hdata, Hhp'. unfold block_bytes. case_match.
      * by rewrite lookup_insert_ne, Hs.
      * by rewrite lookup_insert_eq.
Qed.

(** C3, evaluated: two 16 bit samples become two pixels of three equal
    samples each, and a tile of three channels is left alone. *)
Lemma triplicate_spreads_each_sample_witness :
  triplicate tile_rgb ∅ = Some (tile_rgb, ∅)
  ∧ ∃ t' hp' blk,
      triplicate tile_2x1_16 heap_2x1_16 = Some (t', hp')
      ∧ channels t' = 3
      ∧ block_bytes (data t') hp' = Some blk
      ∧ zlength blk = 12
      ∧ element blk 2 0 = [Some 1; Some 2]
      ∧ element blk 2 1 = [Some 1; Some 2]
      ∧ element blk 2 2 = [Some 1; Some 2]
      ∧ element blk 2 3 = [Some 3; Some 4]
      ∧ element blk 2 4 = [Some 3; Some 4]
      ∧ element blk 2 5 = [Some 3; Some 4].
Proof.
  split.
  - apply (triplicate_spreads_each_sample tile_rgb ∅). by vm_compute.
  - destruct (proj2 (triplicate_spreads_each_sample tile_2x1_16 heap_2x1_16)
                (Some <$> [1; 2; 3; 4]))
      as (t' & hp' & blk & Hrun & Hch & _ & _ & _ & _ & _ & Hblk & _ & Hz
          & Hel & _).
    + reflexivity.
    + by vm_compute.
    + by vm_compute.
    + by vm_compute.
    + reflexivity.
    + by vm_compute.
    + by vm_compute.
    + intros _. exists T_ushort. split; reflexivity.
    + exists t', hp', blk.
      split; [exact Hrun|]. split; [exact Hch|]. split; [exact Hblk|].
      split; [exact Hz|].
      split; [exact (Hel 0 0 ltac:(by vm_compute) ltac:(lia))|].
      split; [exact (Hel 0 1 ltac:(by vm_compute) ltac:(lia))|].
      split; [exact (Hel 0 2 ltac:(by vm_compute) ltac:(lia))|].
      split; [exact (Hel 1 0 ltac:(by vm_compute) ltac:(lia))|].
      split; [exact (Hel 1 1 ltac:(by vm_compute) ltac:(lia))|].
      exact (Hel 1 2 ltac:(by vm_compute) ltac:(lia)).
Defined.

(** ** The sizes a reshape leaves *)

Section Sizes.

Implicit Types (t : RawTile) (hp : gmap positive slot).

(** Whatever else happens, a [crop] that returns has set the four members
    it assigns at its end and has left the sample description alone. *)
Lemma crop_result_members w h t hp t' hp' :
  crop w h t hp = Some (t', hp') →
  width t' = w ∧ height t' = h
  ∧ channels t' = channels t ∧ bpc t' = bpc t
  ∧ capacity t' = byte_size w h (channels t) (bpc t)
  ∧ dataLength t' = byte_size w h (channels t) (bpc t).
Proof.
  unfold crop. rewrite allocate_eq. tile_simpl.
  destruct (crop_lines _ _ _ _ _ _) as [hp2|]; [|done].
  cbn [mbind option_bind].
  destruct (memoryManaged t =? 0).
  - cbn [mbind option_bind]. intros [= <- <-]. done.
  - destruct (data t) as [s|].
    + rewrite deallocate_eq.
      destruct (delete_array _ _ _) as [hp3|]; [|done].
      cbn [mbind option_bind]. intros [= <- <-]. done.
    + cbn [deallocate mbind option_bind]. intros [= <- <-]. done.
Qed.

(** [triplicate] stores the number of pixels, not of bytes, in the two
    size members. *)
Lemma triplicate_sizes_are_pixel_counts t hp src :
  channels t = 1 →
  is_uint32 (width t) → is_uint32 (height t) → 8 <= bpc t →
  block_bytes (data t) hp = Some src →
  width t * height t * elem_size t <= zlength src →
  width t * height t * 3 * (bpc t ÷ 8) < 2 ^ 32 →
  releasable t hp →
  ∃ t' hp',
    triplicate t hp = Some (t', hp')
    ∧ capacity t' = width t * height t
    ∧ dataLength t' = width t * height t
    ∧ default_size t' = width t * height t * 3 * (bpc t ÷ 8).
Proof.
  intros Hch Hw Hh Hb Hsrc Hhold Hfit Hrel.
  destruct (triplicate_run t hp src) as
    (a & s & out & hp' & Hrun & _); try done.
  eexists _, hp'. split; [exact Hrun|]. tile_simpl.
  split; [done|]. split; [done|]. unfold default_size. tile_simpl.
  apply byte_size_exact. unfold is_uint32, UINT32_MOD in *.
  pose proof (elem_size_le_quot t Hb). pose proof (elem_size_pos t).
  assert (0 <= width t * height t) by (apply Z.mul_nonneg_nonneg; lia).
  split; [|lia]. apply Z.mul_nonneg_nonneg; lia.
Qed.

End Sizes.

(** C1, as the code has it.  After a [crop] that returns, [dataLength]
    and [capacity] are the byte size [width * height * channels * (bpc/8)]
    of the new geometry, in the unsigned 32 bit arithmetic of the source.
    After an allocation of the default size, [capacity] is that byte size;
    [dataLength] is not assigned and keeps its value. *)
Theorem sizes_after_crop_and_allocate (t : RawTile)
                                      (hp : gmap positive slot) (w h : Z) :
  (∀ t' hp',
     crop w h t hp = Some (t', hp') →
     dataLength t'
     = (width t' * height t' * channels t' * (bpc t' ÷ 8)) mod 2 ^ 32
     ∧ capacity t' = dataLength t')
  ∧ (let t' := (allocate 0 t hp).1 in
     capacity t'
     = (width t' * height t' * channels t' * (bpc t' ÷ 8)) mod 2 ^ 32
     ∧ dataLength t' = dataLength t).
Proof.
  split.
  - intros t' hp' Hrun.
    destruct (crop_result_members _ _ _ _ _ _ Hrun)
      as (-> & -> & -> & -> & -> & ->).
    split; [apply byte_size_mod|done].
  - rewrite allocate_eq. tile_simpl. split; [|done].
    unfold requested_size, default_size. cbn [Z.eqb]. apply byte_size_mod.
Qed.

(** C1, evaluated at the 4 by 4 tile cropped to 2 by 2. *)
Lemma sizes_after_crop_and_allocate_witness :
  ∃ t' hp',
    crop 2 2 tile_4x4 heap_4x4 = Some (t', hp')
    ∧ dataLength t' = 4 ∧ capacity t' = 4
    ∧ width t' * height t' * channels t' * (bpc t' ÷ 8) = 4.
Proof.
  destruct (crop 2 2 tile_4x4 heap_4x4) as [[t' hp']|] eqn:Hrun;
    [|by vm_compute in Hrun].
  exists t', hp'. split; [done|].
  destruct (proj1 (sizes_after_crop_and_allocate tile_4x4 heap_4x4 2 2)
              t' hp' Hrun) as [Hd Hc].
  destruct (crop_result_members _ _ _ _ _ _ Hrun)
    as (Hw & Hh & Hch & Hb & _ & _).
  rewrite Hc, Hd, Hw, Hh, Hch, Hb. by vm_compute.
Defined.

(** C1 as stated fails for the allocation: on a tile fresh from the
    constructor, [allocate()] leaves [dataLength] at 0 while the implied
    byte size is 4. *)
Lemma allocate_default_leaves_dataLength :
  let t' := (allocate 0 tile_2x2 ∅).1 in
  dataLength t' = 0
  ∧ width t' * height t' * channels t' * (bpc t' ÷ 8) = 4
  ∧ dataLength t' ≠ width t' * height t' * channels t' * (bpc t' ÷ 8).
Proof. by vm_compute. Qed.

(** ** Copy *)

Section Copy.

Implicit Types (t this tile : RawTile) (hp : gmap positive slot).

Lemma write_bytes_all (xs l : list cell) :
  length xs = length l → write_bytes 0 xs l = xs.
Proof.
  intros Hl. unfold write_bytes. change (Z.to_nat 0) with 0%nat.
  rewrite <- (app_nil_r l). rewrite list_inserts_0_r by done.
  apply app_nil_r.
Qed.

Lemma has_data_true tile :
  has_data tile = true ↔ is_Some (data tile) ∧ 0 < dataLength tile.
Proof.
  unfold has_data. destruct (data tile).
  - rewrite Z.ltb_lt. split; [intros; split; [by eexists|done]|by intros []].
  - split; [done|]. by intros [[] _].
Qed.

Lemma holds_data_has_data tile hp src :
  holds_data tile hp src → has_data tile = true.
Proof.
  intros (Hsrc & Hlen & _). apply has_data_true. split; [|lia].
  destruct (block_bytes_Some _ _ _ Hsrc) as (s & ty & -> & _). by eexists.
Qed.

(** The common part of the copy and move operations: a fresh array of
    the element type of [this] receives the [dataLength] bytes of
    [tile]. *)
Lemma copy_data_spec this tile hp src :
  holds_data tile hp src →
  elem_size this = elem_size tile →
  copy_data this tile hp
  = Some (set_memoryManaged 1
            (set_capacity (dataLength tile)
               (set_memoryManaged 1
                  (set_data (Some (fresh (dom hp))) this))),
          <[fresh (dom hp) :=
              Live (alloc_type this)
                (take (Z.to_nat (dataLength tile)) src)]> hp).
Proof.
  intros (Hsrc & Hlen & Hdiv) Hsz.
  destruct (block_bytes_Some _ _ _ Hsrc) as (s & sty & Hdata & Hs).
  unfold copy_data. rewrite allocate_eq. tile_simpl.
  set (a := fresh (dom hp)).
  assert (hp !! a = None) as Ha by apply fresh_unused.
  assert (a ≠ s) as Hne by (intros ->; congruence).
  assert (requested_size (dataLength tile) this = dataLength tile) as ->.
  { unfold requested_size. rewrite (proj2 (Z.eqb_neq _ 0)); [done|lia]. }
  rewrite alloc_bytes_exact by (by rewrite Hsz).
  rewrite Hdata. cbn [byte_cast].
  erewrite memcpy_spec;
    [|done|apply lookup_insert_eq|by rewrite lookup_insert_ne|lia|lia|lia
     |rewrite zlength_replicate by lia; lia|lia].
  cbn [mbind option_bind]. rewrite insert_insert_eq.
  rewrite write_bytes_all.
  - unfold read_bytes. change (Z.to_nat 0) with 0%nat. by rewrite drop_0.
  - rewrite length_read_bytes by lia. by rewrite length_replicate.
Qed.

Lemma deep_copy_of_intro this tile src hp :
  set_data (data tile) this = tile →
  deep_copy_of tile
    (set_memoryManaged 1
       (set_capacity (dataLength tile)
          (set_memoryManaged 1 (set_data (Some (fresh (dom hp))) this))))
    src hp
    (<[fresh (dom hp) :=
         Live (alloc_type this) (take (Z.to_nat (dataLength tile)) src)]> hp).
Proof.
  intros Heq. unfold deep_copy_of. exists (fresh (dom hp)). tile_simpl.
  split; [done|]. split; [apply fresh_unused|].
  assert (alloc_type this = alloc_type tile) as -> by (by rewrite <- Heq).
  split; [done|]. split; [done|]. split; [done|].
  destruct this, tile. unfold set_data in Heq. tile_simpl.
  inversion Heq; subst. reflexivity.
Qed.

Lemma copy_construct_spec tile hp src :
  holds_data tile hp src →
  ∃ this hp',
    copy_construct tile hp = Some (this, hp')
    ∧ deep_copy_of tile this src hp hp'.
Proof.
  intros Hhold. unfold copy_construct.
  rewrite (holds_data_has_data _ _ _ Hhold).
  rewrite (copy_data_spec _ _ _ _ Hhold) by done.
  eexists _, _. split; [done|].
  apply deep_copy_of_intro. by destruct tile.
Qed.

Lemma copy_assign_spec (m : machine) (this tile : nat) me src_tile src :
  this ≠ tile →
  objs m !! this = Some me → objs m !! tile = Some src_tile →
  holds_data src_tile (mem m) src →
  ∃ me' hp',
    copy_assign this tile m
    = Some {| objs := <[this := me']> (objs m); mem := hp' |}
    ∧ deep_copy_of src_tile me' src (mem m) hp'.
Proof.
  intros Hne Hme Hsrc Hhold. unfold copy_assign.
  rewrite decide_False by done. rewrite Hsrc, Hme.
  cbn [mbind option_bind].
  rewrite (holds_data_has_data _ _ _ Hhold).
  rewrite (copy_data_spec _ _ _ _ Hhold) by done.
  cbn [mbind option_bind].
  eexists _, _. split; [done|].
  apply deep_copy_of_intro. unfold assign_members. by destruct src_tile.
Qed.

(** What a deep copy means for the two buffers. *)
Lemma deep_copy_isolated tile this src hp hp' :
  block_bytes (data tile) hp = Some src →
  deep_copy_of tile this src hp hp' →
  data this ≠ data tile
  ∧ block_bytes (data this) hp'
    = Some (take (Z.to_nat (dataLength tile)) src)
  ∧ block_type (data this) hp' = Some (alloc_type tile)
  ∧ block_bytes (data tile) hp' = Some src
  ∧ (∀ a blk, data this = Some a →
       block_bytes (data tile) (<[a := blk]> hp') = Some src).
Proof.
  intros Hsrc (a & Hdata & Ha & -> & _).
  destruct (block_bytes_Some _ _ _ Hsrc) as (s & sty & Hs & Hlive).
  assert (a ≠ s) as Hne by (intros ->; congruence).
  rewrite Hdata, Hs. unfold block_bytes, block_type.
  rewrite lookup_insert_eq, lookup_insert_ne, Hlive by done.
  split; [congruence|]. split; [done|]. split; [done|]. split; [done|].
  intros a' blk [= <-]. by rewrite insert_insert_eq, lookup_insert_ne, Hlive.
Qed.

End Copy.

(** C8, as the code has it.  A tile has data when its buffer reference is
    not null and [dataLength] is positive.  Copying such a tile, whose
    buffer holds these bytes as whole elements, gives the destination an
    array of its own, fresh and of the same element type, with a copy of
    the [dataLength] bytes; the destination owns it and has [capacity]
    equal to the [dataLength] of the source, and every other member equal
    to the one of the source.  The source, its buffer and the rest of the
    memory are as before, and a later write to the buffer of the copy
    leaves the buffer of the source alone.  This holds for the copy
    constructor and for the copy assignment between two objects.  Copying
    a tile without data allocates nothing: the destination gets every
    member of the source but [data], the ownership flag included. *)
Theorem copy_of_tile_with_data_is_deep :
  (∀ tile hp src,
     holds_data tile hp src →
     ∃ this hp',
       copy_construct tile hp = Some (this, hp')
       ∧ deep_copy_of tile this src hp hp'
       ∧ data this ≠ data tile
       ∧ block_bytes (data this) hp'
         = Some (take (Z.to_nat (dataLength tile)) src)
       ∧ block_type (data this) hp' = Some (alloc_type tile)
       ∧ block_bytes (data tile) hp' = Some src
       ∧ (∀ a blk, data this = Some a →
            block_bytes (data tile) (<[a := blk]> hp') = Some src))
  ∧ (∀ m this tile me src_tile src,
       this ≠ tile →
       objs m !! this = Some me → objs m !! tile = Some src_tile →
       holds_data src_tile (mem m) src →
       ∃ me' m',
         copy_assign this tile m = Some m'
         ∧ objs m' = <[this := me']> (objs m)
         ∧ objs m' !! tile = Some src_tile
         ∧ deep_copy_of src_tile me' src (mem m) (mem m')
         ∧ data me' ≠ data src_tile
         ∧ block_bytes (data me') (mem m')
           = Some (take (Z.to_nat (dataLength src_tile)) src)
         ∧ block_type (data me') (mem m') = Some (alloc_type src_tile)
         ∧ block_bytes (data src_tile) (mem m') = Some src
         ∧ (∀ a blk, data me' = Some a →
              block_bytes (data src_tile) (<[a := blk]> (mem m'))
              = Some src))
  ∧ (∀ tile hp,
       has_data tile = false →
       copy_construct tile hp = Some (set_data None tile, hp))
  ∧ (∀ m this tile me src_tile,
       this ≠ tile →
       objs m !! this = Some me → objs m !! tile = Some src_tile →
       has_data src_tile = false →
       copy_assign this tile m
       = Some (set_obj this (set_data (data me) src_tile) m)).
Proof.
  split; [|split; [|split]].
  - intros tile hp src Hhold.
    destruct (copy_construct_spec tile hp src Hhold)
      as (this & hp' & Hrun & Hdeep).
    exists this, hp'. split; [done|]. split; [done|].
    apply (deep_copy_isolated tile this src hp hp'); [apply Hhold|done].
  - intros m this tile me src_tile src Hne Hme Hsrc Hhold.
    destruct (copy_assign_spec m this tile me src_tile src)
      as (me' & hp' & Hrun & Hdeep); try done.
    eexists me', _. split; [exact Hrun|]. cbn [objs mem].
    split; [done|]. split; [by rewrite lookup_insert_ne|].
    split; [done|].
    apply (deep_copy_isolated src_tile me' src (mem m) hp');
      [apply Hhold|done].
  - intros tile hp Hno. unfold copy_construct. by rewrite Hno.
  - intros m this tile me src_tile Hne Hme Hsrc Hno. unfold copy_assign.
    rewrite decide_False by done. rewrite Hsrc, Hme.
    cbn [mbind option_bind]. by rewrite Hno.
Qed.

(** C8, evaluated: the 4 by 4 tile is copied by the constructor and, in a
    store of two objects, by the assignment to the other object. *)
Lemma copy_of_tile_with_data_is_deep_witness :
  (∃ this hp',
     copy_construct tile_4x4 heap_4x4 = Some (this, hp')
     ∧ memoryManaged this = 1
     ∧ data this ≠ data tile_4x4
     ∧ block_bytes (data this) hp' = Some bytes_4x4
     ∧ block_bytes (data tile_4x4) hp' = Some bytes_4x4)
  ∧ (∃ me' m',
       copy_assign 1 0 two_tiles = Some m'
       ∧ objs m' !! 1%nat = Some me'
       ∧ objs m' !! 0%nat = Some tile_4x4
       ∧ memoryManaged me' = 1
       ∧ block_bytes (data me') (mem m') = Some bytes_4x4
       ∧ block_bytes (data tile_4x4) (mem m') = Some bytes_4x4).
Proof.
  assert (holds_data tile_4x4 heap_4x4 bytes_4x4) as Hhold.
  { split; [reflexivity|]. split; [by vm_compute|]. by exists 16. }
  destruct copy_of_tile_with_data_is_deep as (Hctor & Hassign & _ & _).
  split.
  - destruct (Hctor tile_4x4 heap_4x4 bytes_4x4 Hhold)
      as (this & hp' & Hrun & Hdeep & Hne & Hcopy & _ & Hsrc & _).
    exists this, hp'. split; [exact Hrun|].
    destruct Hdeep as (a & _ & _ & _ & Hmm & _).
    split; [exact Hmm|]. split; [exact Hne|].
    split; [exact Hcopy|exact Hsrc].
  - destruct (Hassign two_tiles 1%nat 0%nat tile_2x2 tile_4x4 bytes_4x4)
      as (me' & m' & Hrun & Hobjs & Htile & Hdeep & Hne & Hcopy & _ & Hsrc & _).
    + done.
    + reflexivity.
    + reflexivity.
    + exact Hhold.
    + exists me', m'. split; [exact Hrun|].
      split; [rewrite Hobjs; apply lookup_insert_eq|].
      split; [exact Htile|].
      destruct Hdeep as (a & _ & _ & _ & Hmm & _).
      split; [exact Hmm|]. split; [exact Hcopy|exact Hsrc].
Defined.

(** C8 as stated fails on a tile without data: the copy of a tile that
    was moved from has no buffer, and it is not marked as owning one.
    Such a tile is what the move constructor leaves behind. *)
Lemma copy_of_moved_from_tile_is_not_owning :
  move_construct tile_2x2 ∅ = Some (tile_2x2, tile_moved_from, ∅)
  ∧ copy_construct tile_moved_from ∅ = Some (tile_moved_from, ∅)
  ∧ memoryManaged tile_moved_from = 0
  ∧ data tile_moved_from = None.
Proof. by vm_compute. Qed.

(** ** Move *)

Section Move.

Implicit Types (t this tile : RawTile) (hp : gmap positive slot).

(** The move constructor on a tile that owns its buffer: the new tile is
    the old one, buffer reference included; the old one is released; the
    memory is not touched. *)
Lemma move_construct_owner tile hp :
  memoryManaged tile = 1 →
  move_construct tile hp = Some (tile, released tile, hp).
Proof.
  intros Hmm. unfold move_construct. rewrite Hmm. cbn [Z.eqb Pos.eqb].
  by destruct tile.
Qed.

(** The move constructor on a tile that does not own its buffer and has
    data: a deep copy, the tile moved from is as before. *)
Lemma move_construct_borrower tile hp src :
  memoryManaged tile ≠ 1 →
  holds_data tile hp src →
  ∃ this hp',
    move_construct tile hp = Some (this, tile, hp')
    ∧ deep_copy_of tile this src hp hp'.
Proof.
  intros Hmm Hhold. unfold move_construct.
  rewrite (proj2 (Z.eqb_neq _ _) Hmm).
  rewrite (holds_data_has_data _ _ _ Hhold).
  rewrite (copy_data_spec _ _ _ _ Hhold) by done.
  cbn [mbind option_bind]. eexists _, _. split; [done|].
  apply deep_copy_of_intro. by destruct tile.
Qed.

(** The move assignment to an object without data, from an object that
    owns its buffer. *)
Lemma move_assign_owner (m : machine) (this tile : nat) me src_tile :
  this ≠ tile →
  objs m !! this = Some me → objs m !! tile = Some src_tile →
  has_data me = false →
  memoryManaged src_tile = 1 →
  move_assign this tile m
  = Some {| objs := <[tile := released (set_filename EmptyString src_tile)]>
                      (<[this := src_tile]> (objs m));
            mem := mem m |}.
Proof.
  intros Hne Hme Hsrc Hno Hmm. unfold move_assign.
  rewrite decide_False by done. rewrite Hme. cbn [mbind option_bind].
  rewrite Hno. cbn [mbind option_bind]. rewrite Hme, Hsrc.
  cbn [mbind option_bind]. rewrite Hmm. cbn [Z.eqb Pos.eqb].
  unfold assign_members. by destruct src_tile.
Qed.

(** The move assignment to an object without data, from an object that
    does not own its buffer and has data. *)
Lemma move_assign_borrower (m : machine) (this tile : nat) me src_tile src :
  this ≠ tile →
  objs m !! this = Some me → objs m !! tile = Some src_tile →
  has_data me = false →
  memoryManaged src_tile ≠ 1 →
  holds_data src_tile (mem m) src →
  ∃ me' hp',
    move_assign this tile m
    = Some {| objs := <[tile := set_filename EmptyString src_tile]>
                        (<[this := me']> (objs m));
              mem := hp' |}
    ∧ deep_copy_of src_tile me' src (mem m) hp'.
Proof.
  intros Hne Hme Hsrc Hno Hmm Hhold. unfold move_assign.
  rewrite decide_False by done. rewrite Hme. cbn [mbind option_bind].
  rewrite Hno. cbn [mbind option_bind]. rewrite Hme, Hsrc.
  cbn [mbind option_bind]. rewrite (proj2 (Z.eqb_neq _ _) Hmm).
  rewrite (holds_data_has_data _ _ _ Hhold).
  rewrite (copy_data_spec _ _ _ _ Hhold) by done.
  cbn [mbind option_bind]. eexists _, _. split; [done|].
  apply deep_copy_of_intro. unfold assign_members. by destruct src_tile.
Qed.

(** The move assignment to an object that has data executes
    [delete this] and then assigns to the members of the deleted object:
    the behaviour is undefined, whatever the tile moved from. *)
Lemma move_assign_to_tile_with_data (m : machine) (this tile : nat) me :
  this ≠ tile →
  objs m !! this = Some me →
  has_data me = true →
  move_assign this tile m = None.
Proof.
  intros Hne Hme Hhas. unfold move_assign.
  rewrite decide_False by done. rewrite Hme. cbn [mbind option_bind].
  rewrite Hhas. unfold delete_this. rewrite Hme. cbn [mbind option_bind].
  destruct (destructor me (mem m)) as [hp|]; [|done].
  cbn [mbind option_bind objs]. by rewrite lookup_delete_eq.
Qed.

End Move.

(** C4.  The move constructor does what the claim says, and so does the
    move assignment to an object without a buffer: at the 4 by 4 tile,
    which owns its buffer, the new tile takes the buffer reference, the
    memory is untouched, and the tile moved from is left with a null
    reference, both sizes zero and the ownership flag cleared.  The move
    assignment to an object that holds a buffer of its own, here of one
    byte, deletes that object before it assigns to its members: no
    transfer is defined. *)
Theorem move_assign_deletes_its_destination :
  move_construct tile_4x4 heap_4x4
  = Some (tile_4x4, released tile_4x4, heap_4x4)
  ∧ data (released tile_4x4) = None
  ∧ dataLength (released tile_4x4) = 0
  ∧ capacity (released tile_4x4) = 0
  ∧ memoryManaged (released tile_4x4) = 0
  ∧ (∃ m', move_assign 1 0 two_tiles = Some m'
           ∧ objs m' !! 1%nat = Some tile_4x4
           ∧ objs m' !! 0%nat
             = Some (released (set_filename EmptyString tile_4x4))
           ∧ mem m' = mem two_tiles)
  ∧ has_data tile_1x1 = true
  ∧ objs two_owners !! 1%nat = Some tile_1x1
  ∧ objs two_owners !! 0%nat = Some tile_4x4
  ∧ move_assign 1 0 two_owners = None.
Proof.
  split; [by apply move_construct_owner|].
  repeat (split; [reflexivity|]).
  split.
  { eexists. split.
    - by apply (move_assign_owner two_tiles 1 0 tile_2x2 tile_4x4).
    - cbn [objs mem]. split; [|split; [|done]].
      + rewrite lookup_insert_ne by done. apply lookup_insert_eq.
      + apply lookup_insert_eq. }
  repeat (split; [reflexivity|]).
  by apply (move_assign_to_tile_with_data two_owners 1 0 tile_1x1).
Qed.

(** * Further properties of the class *)

(** ** The life of a buffer *)

(** X1.  [allocate] followed by the destructor releases exactly the array
    [allocate] created, for every size, [bpc] and [sampleType]; the rest
    of the memory is as it was before the allocation. *)
Theorem allocate_then_destroy (size : Z) (t : RawTile)
                              (hp : gmap positive slot) :
  ∃ a,
    hp !! a = None
    ∧ data (allocate size t hp).1 = Some a
    ∧ destructor (allocate size t hp).1 (allocate size t hp).2
      = Some (<[a := Freed]> hp).
Proof.
  rewrite allocate_eq. cbn [fst snd]. exists (fresh (dom hp)).
  split; [apply fresh_unused|]. tile_simpl. split; [done|].
  unfold destructor. tile_simpl. cbn [Z.eqb].
  erewrite deallocate_live;
    [|apply lookup_insert_eq|apply (release_alloc_compatible t)].
  cbn [fmap option_fmap option_map snd]. by rewrite insert_insert_eq.
Qed.

(** X2.  The array [allocate] creates holds whole elements only: its
    length in bytes is the capacity rounded down to a multiple of the
    element size, so it is shorter than [capacity] says exactly when the
    size is not a multiple of the element size. *)
Theorem allocate_rounds_down (size : Z) (t : RawTile)
                             (hp : gmap positive slot) :
  0 <= requested_size size t →
  ∃ blk,
    block_bytes (data (allocate size t hp).1) (allocate size t hp).2
    = Some blk
    ∧ capacity (allocate size t hp).1 = requested_size size t
    ∧ zlength blk
      = capacity (allocate size t hp).1
        - capacity (allocate size t hp).1 mod elem_size t
    ∧ (zlength blk = capacity (allocate size t hp).1
       ↔ (elem_size t | capacity (allocate size t hp).1)).
Proof.
  intros Hsz. rewrite allocate_eq. tile_simpl. eexists.
  unfold block_bytes. rewrite lookup_insert_eq.
  split; [done|]. split; [done|].
  pose proof (elem_size_pos t) as Hpos.
  rewrite zlength_replicate by (apply alloc_bytes_le; lia).
  unfold alloc_bytes.
  pose proof (Z.div_mod (requested_size size t) (elem_size t)) as Hdm.
  split; [lia|]. rewrite <- Z.mod_divide by lia. lia.
Qed.

(** X2, evaluated: seven bytes requested for 32 bit floating point
    samples give an array of four bytes and a capacity of seven. *)
Lemma allocate_rounds_down_witness :
  ∃ blk,
    block_bytes (data (allocate 7 tile_float ∅).1) (allocate 7 tile_float ∅).2
    = Some blk
    ∧ capacity (allocate 7 tile_float ∅).1 = 7
    ∧ zlength blk = 4.
Proof.
  destruct (allocate_rounds_down 7 tile_float ∅) as (blk & Hb & Hc & Hz & _).
  - by vm_compute.
  - exists blk. split; [exact Hb|]. split; [exact Hc|].
    rewrite Hz, Hc. reflexivity.
Defined.

(** ** Comparison *)

(** X3.  [operator==] is an equivalence relation on tiles. *)
Theorem op_eq_is_equivalence :
  (∀ A, op_eq A A = 1)
  ∧ (∀ A B, op_eq A B = op_eq B A)
  ∧ (∀ A B C, op_eq A B = 1 → op_eq B C = 1 → op_eq A C = 1).
Proof.
  split; [|split].
  - intros A. apply op_eq_true. by repeat split.
  - intros A B.
    destruct (op_eq_cases A B) as [HAB|HAB], (op_eq_cases B A) as [HBA|HBA];
      rewrite HAB, HBA; try done; exfalso.
    + apply op_eq_false in HBA. apply op_eq_true in HAB. apply HBA.
      destruct HAB as (?&?&?&?&?&?&?). by repeat split.
    + apply op_eq_false in HAB. apply op_eq_true in HBA. apply HAB.
      destruct HBA as (?&?&?&?&?&?&?). by repeat split.
  - intros A B C HAB HBC. apply op_eq_true in HAB, HBC. apply op_eq_true.
    destruct HAB as (?&?&?&?&?&?&?), HBC as (?&?&?&?&?&?&?).
    repeat split; congruence.
Qed.

(** X3, evaluated on three tiles that differ in geometry only. *)
Lemma op_eq_is_equivalence_witness :
  op_eq tile_2x2 tile_rgb = 1.
Proof.
  destruct op_eq_is_equivalence as (_ & _ & Htrans).
  apply (Htrans tile_2x2 tile_4x4 tile_rgb); reflexivity.
Defined.

(** ** What the operations leave alone *)

Section Frames.

Implicit Types (t this tile : RawTile) (hp : gmap positive slot).


(** A [triplicate] that returns on a tile of one channel has assigned
    [channels], the two sizes, the ownership flag and [data], and nothing
    else. *)
Lemma triplicate_frame t hp t' hp' :
  channels t = 1 →
  triplicate t hp = Some (t', hp') →
  t' = set_dataLength (umul (width t) (height t))
         (set_capacity (umul (width t) (height t))
            (set_memoryManaged 1
               (set_data (Some (fresh (dom hp))) (set_channels 3 t)))).
Proof.
  intros Hch. unfold triplicate. rewrite Hch. cbn [Z.eqb Pos.eqb negb].
  rewrite allocate_eq. tile_simpl.
  destruct (triplicate_pixels _ _ _ _ _ _) as [hp2|]; [|done].
  cbn [mbind option_bind].
  destruct (memoryManaged t =? 0).
  - cbn [mbind option_bind]. by intros [= <- <-].
  - destruct (data t) as [s|].
    + rewrite deallocate_eq.
      destruct (delete_array _ _ _) as [hp3|]; [|done].
      cbn [mbind option_bind]. by intros [= <- <-].
    + cbn [deallocate mbind option_bind]. by intros [= <- <-].
Qed.


End Frames.



(** ** Ownership across copies and moves *)

Section Lifetimes.

Implicit Types (t this tile : RawTile) (hp : gmap positive slot).

(** The destructor of a tile that owns a live array it may release. *)
Lemma destructor_owner t hp s ty bs :
  memoryManaged t ≠ 0 → data t = Some s →
  hp !! s = Some (Live ty bs) →
  release_compatible ty (release_type t) = true →
  destructor t hp = Some (<[s := Freed]> hp).
Proof.
  intros Hmm Hdata Hs Hc. unfold destructor.
  rewrite (proj2 (Z.eqb_neq _ _) Hmm), Hdata.
  by erewrite deallocate_live.
Qed.

(** The copy and move operations do not return when the data of the
    source are not a whole number of elements. *)
Lemma copy_data_partial_element this tile hp :
  has_data tile = true →
  ¬ (elem_size this | dataLength tile) →
  copy_data this tile hp = None.
Proof.
  intros Hhas Hdiv. apply has_data_true in Hhas as [[s Hs] Hlen].
  pose proof (elem_size_pos this) as Hpos.
  unfold copy_data. rewrite allocate_eq. tile_simpl.
  assert (requested_size (dataLength tile) this = dataLength tile) as ->.
  { unfold requested_size. rewrite (proj2 (Z.eqb_neq _ 0)); [done|lia]. }
  assert (alloc_bytes this (dataLength tile) < dataLength tile) as Hshort.
  { unfold alloc_bytes.
    pose proof (Z.div_mod (dataLength tile) (elem_size this)) as Hdm.
    pose proof (Z.mod_pos_bound (dataLength tile) (elem_size this)) as Hb.
    assert (dataLength tile mod elem_size this ≠ 0); [|lia].
    intros H0. apply Hdiv. apply Z.mod_divide; [lia|done]. }
  rewrite Hs. cbn [byte_cast]. unfold memcpy.
  rewrite lookup_insert_eq.
  destruct (_ !! s) as [[sty sbs|]|]; try done.
  rewrite decide_False; [done|].
  intros (_ & _ & _ & Hd & _).
  rewrite zlength_replicate in Hd; [lia|].
  unfold alloc_bytes. apply Z.mul_nonneg_nonneg; [lia|].
  apply Z.div_pos; lia.
Qed.

End Lifetimes.

(** X5.  The move constructor, given a tile that owns a live buffer, hands
    the buffer over without touching the memory: the new tile is the old
    one member for member, the tile moved from is left with a null
    reference, both sizes zero and the ownership flag cleared.
    Destroying the tile moved from releases nothing, before or after the
    new tile is destroyed; destroying the new tile releases the buffer. *)
Theorem move_construct_hands_over (tile : RawTile) (hp : gmap positive slot)
                                  (s : positive) (ty : ElemType)
                                  (bs : list cell) :
  memoryManaged tile = 1 → data tile = Some s →
  hp !! s = Some (Live ty bs) →
  release_compatible ty (release_type tile) = true →
  ∃ this tile',
    move_construct tile hp = Some (this, tile', hp)
    ∧ this = tile
    ∧ data tile' = None ∧ dataLength tile' = 0 ∧ capacity tile' = 0
    ∧ memoryManaged tile' = 0
    ∧ destructor tile' hp = Some hp
    ∧ destructor this hp = Some (<[s := Freed]> hp)
    ∧ destructor tile' (<[s := Freed]> hp) = Some (<[s := Freed]> hp).
Proof.
  intros Hmm Hdata Hs Hc. exists tile, (released tile).
  split; [by apply move_construct_owner|].
  repeat (split; [done|]). split.
  - eapply destructor_owner; [lia|done..].
  - done.
Qed.

(** X5, evaluated at the 4 by 4 tile. *)
Lemma move_construct_hands_over_witness :
  ∃ this tile',
    move_construct tile_4x4 heap_4x4 = Some (this, tile', heap_4x4)
    ∧ data this = Some 1%positive ∧ data tile' = None
    ∧ destructor tile' heap_4x4 = Some heap_4x4
    ∧ destructor this heap_4x4 = Some {[ 1%positive := Freed ]}.
Proof.
  destruct (move_construct_hands_over tile_4x4 heap_4x4 1%positive
              T_uchar bytes_4x4)
    as (this & tile' & Hrun & -> & Hd & _ & _ & _ & Hd1 & Hd2 & _);
    try reflexivity.
  exists tile_4x4, tile'. split; [exact Hrun|]. split; [reflexivity|].
  split; [exact Hd|]. split; [exact Hd1|].
  rewrite Hd2. reflexivity.
Defined.

(** X6.  A copy of a tile that owns its data has a lifetime of its own:
    the copy and the original can be destroyed in either order; each
    destructor releases the array of its own tile only, and the other
    tile's bytes are still there in between. *)
Theorem copy_has_its_own_lifetime (tile : RawTile) (hp : gmap positive slot)
                                  (src : list cell) :
  holds_data tile hp src → memoryManaged tile ≠ 0 → releasable tile hp →
  ∃ this hp' a s,
    copy_construct tile hp = Some (this, hp')
    ∧ data this = Some a ∧ data tile = Some s ∧ a ≠ s
    ∧ destructor this hp' = Some (<[a := Freed]> hp')
    ∧ block_bytes (data tile) (<[a := Freed]> hp') = Some src
    ∧ destructor tile (<[a := Freed]> hp')
      = Some (<[s := Freed]> (<[a := Freed]> hp'))
    ∧ destructor tile hp' = Some (<[s := Freed]> hp')
    ∧ block_bytes (data this) (<[s := Freed]> hp')
      = Some (take (Z.to_nat (dataLength tile)) src)
    ∧ destructor this (<[s := Freed]> hp')
      = Some (<[a := Freed]> (<[s := Freed]> hp')).
Proof.
  intros Hhold Hmm Hrel.
  destruct (copy_construct_spec tile hp src Hhold)
    as (this & hp' & Hrun & a & Hdata & Ha & -> & Hown & _ & Heq).
  destruct Hhold as (Hsrc & _ & _).
  destruct (block_bytes_Some _ _ _ Hsrc) as (s & sty & Hs & Hlive).
  destruct (Hrel Hmm) as (ty & Hty & Hcompat).
  destruct (block_type_Some _ _ _ Hty) as (s' & bs' & Hs' & Hlive').
  assert (s' = s) as -> by congruence.
  assert (ty = sty) as -> by congruence.
  assert (a ≠ s) as Hne by (intros ->; congruence).
  assert (release_type this = release_type tile) as Hrt.
  { rewrite <- Heq. done. }
  eexists this, _, a, s. split; [exact Hrun|].
  split; [done|]. split; [done|]. split; [done|].
  split.
  { eapply destructor_owner; [lia|done|apply lookup_insert_eq|].
    rewrite Hrt. apply release_alloc_compatible. }
  split.
  { rewrite Hs. unfold block_bytes.
    by rewrite lookup_insert_ne, lookup_insert_ne, Hlive. }
  split.
  { eapply destructor_owner; [done|done| |done].
    by rewrite lookup_insert_ne, lookup_insert_ne. }
  split.
  { eapply destructor_owner; [done|done| |done].
    by rewrite lookup_insert_ne. }
  split.
  { rewrite Hdata. unfold block_bytes.
    by rewrite lookup_insert_ne, lookup_insert_eq. }
  eapply destructor_owner; [lia|done| |].
  - rewrite lookup_insert_ne by done. apply lookup_insert_eq.
  - rewrite Hrt. apply release_alloc_compatible.
Qed.

(** X6, evaluated at the 4 by 4 tile. *)
Lemma copy_has_its_own_lifetime_witness :
  ∃ this hp' a,
    copy_construct tile_4x4 heap_4x4 = Some (this, hp')
    ∧ data this = Some a ∧ a ≠ 1%positive
    ∧ destructor this hp' = Some (<[a := Freed]> hp')
    ∧ block_bytes (data tile_4x4) (<[a := Freed]> hp') = Some bytes_4x4.
Proof.
  destruct (copy_has_its_own_lifetime tile_4x4 heap_4x4 bytes_4x4)
    as (this & hp' & a & s & Hrun & Hdata & Hs & Hne & Hd & Hb & _).
  - split; [reflexivity|]. split; [by vm_compute|]. by exists 16.
  - by vm_compute.
  - intros _. exists T_uchar. split; reflexivity.
  - exists this, hp', a. split; [exact Hrun|]. split; [exact Hdata|].
    split; [|split; [exact Hd|exact Hb]].
    injection Hs as <-. exact Hne.
Defined.

(** X7.  The copy constructor and the copy assignment do not return when
    the source has data whose length is not a whole number of elements:
    the array they allocate is rounded down to whole elements and the
    [memcpy] of [dataLength] bytes does not fit. *)
Theorem copy_of_partial_element_is_undefined :
  (∀ tile hp,
     has_data tile = true → ¬ (elem_size tile | dataLength tile) →
     copy_construct tile hp = None)
  ∧ (∀ m this tile me src_tile,
       this ≠ tile →
       objs m !! this = Some me → objs m !! tile = Some src_tile →
       has_data src_tile = true →
       ¬ (elem_size src_tile | dataLength src_tile) →
       copy_assign this tile m = None).
Proof.
  split.
  - intros tile hp Hhas Hdiv. unfold copy_construct. rewrite Hhas.
    by apply copy_data_partial_element.
  - intros m this tile me src_tile Hne Hme Hsrc Hhas Hdiv.
    unfold copy_assign. rewrite decide_False by done.
    rewrite Hsrc, Hme. cbn [mbind option_bind]. rewrite Hhas.
    rewrite copy_data_partial_element; done.
Qed.

(** X7, evaluated: three bytes of 16 bit samples. *)
Lemma copy_of_partial_element_is_undefined_witness :
  has_data tile_three_bytes = true
  ∧ dataLength tile_three_bytes = 3 ∧ elem_size tile_three_bytes = 2
  ∧ copy_construct tile_three_bytes heap_2x1_16 = None.
Proof.
  split; [reflexivity|]. split; [reflexivity|]. split; [reflexivity|].
  apply (proj1 copy_of_partial_element_is_undefined); [reflexivity|].
  intros [k Hk]. change (3 = k * 2) in Hk. lia.
Defined.

(** ** Assignment *)

(** X8.  The move assignment to a destination without data, from a
    distinct source that owns its buffer, copies and releases nothing:
    the memory is unchanged, the destination has every member of the
    source, the buffer reference included, the source is left with a null
    reference, both sizes zero and the ownership flag cleared, and no
    other object changes. *)
Theorem move_assign_to_destination_without_data
    (m : machine) (this tile : nat) (me src_tile : RawTile) :
  this ≠ tile →
  objs m !! this = Some me → objs m !! tile = Some src_tile →
  has_data me = false →
  memoryManaged src_tile = 1 →
  ∃ m' src',
    move_assign this tile m = Some m'
    ∧ mem m' = mem m
    ∧ objs m' !! this = Some src_tile
    ∧ objs m' !! tile = Some src'
    ∧ data src' = None ∧ dataLength src' = 0 ∧ capacity src' = 0
    ∧ memoryManaged src' = 0
    ∧ (∀ o, o ≠ this → o ≠ tile → objs m' !! o = objs m !! o).
Proof.
  intros Hne Hme Hsrc Hno Hmm.
  eexists _, _. split; [by eapply move_assign_owner|]. cbn [objs mem].
  split; [done|].
  split; [by rewrite lookup_insert_ne, lookup_insert_eq|].
  split; [apply lookup_insert_eq|].
  repeat (split; [done|]).
  intros o Ho1 Ho2. by rewrite !lookup_insert_ne.
Qed.

(** X8, evaluated: the 4 by 4 tile is moved into a tile without a
    buffer. *)
Lemma move_assign_to_destination_without_data_witness :
  ∃ m' src',
    move_assign 1 0 two_tiles = Some m'
    ∧ mem m' = heap_4x4
    ∧ objs m' !! 1%nat = Some tile_4x4
    ∧ objs m' !! 0%nat = Some src'
    ∧ data src' = None ∧ memoryManaged src' = 0.
Proof.
  destruct (move_assign_to_destination_without_data two_tiles 1 0
              tile_2x2 tile_4x4)
    as (m' & src' & Hrun & Hmem & Hthis & Htile & Hd & _ & _ & Hmm & _);
    try reflexivity; [done|].
  exists m', src'. split; [exact Hrun|]. split; [exact Hmem|].
  split; [exact Hthis|]. split; [exact Htile|]. split; [exact Hd|exact Hmm].
Defined.

(** X9.  The move assignment of an object to itself changes nothing,
    whatever the object holds.  The move assignment to a distinct
    destination that has data does not return, whatever the source: the
    destination is deleted before its members are assigned. *)
Theorem move_assign_to_destination_with_data
    (m : machine) (this tile : nat) (me : RawTile) :
  move_assign this this m = Some m
  ∧ (this ≠ tile →
     objs m !! this = Some me → has_data me = true →
     move_assign this tile m = None).
Proof.
  split.
  - unfold move_assign. by rewrite decide_True.
  - intros Hne Hme Hhas. by eapply move_assign_to_tile_with_data.
Qed.

(** X9, evaluated: the destination holds the two 16 bit samples. *)
Lemma move_assign_to_destination_with_data_witness :
  move_assign 1 1 two_buffers = Some two_buffers
  ∧ move_assign 1 0 two_buffers = None.
Proof.
  destruct (move_assign_to_destination_with_data two_buffers 1 0
              tile_2x1_16_at_3) as [Hself Hrun].
  split; [exact Hself|]. apply Hrun; [done|reflexivity|reflexivity].
Defined.

(** X10.  The copy assignment never releases the buffer the destination
    held: after the assignment from a distinct source with data, the
    destination refers to a new array, and the array it referred to
    before is still allocated, with its bytes. *)
Theorem copy_assign_keeps_old_buffer_allocated
    (m : machine) (this tile : nat) (me src_tile : RawTile)
    (src : list cell) (old : positive) (ty : ElemType) (bs : list cell) :
  this ≠ tile →
  objs m !! this = Some me → objs m !! tile = Some src_tile →
  holds_data src_tile (mem m) src →
  data me = Some old → mem m !! old = Some (Live ty bs) →
  ∃ me' m',
    copy_assign this tile m = Some m'
    ∧ objs m' !! this = Some me'
    ∧ is_Some (data me') ∧ data me' ≠ Some old
    ∧ memoryManaged me' = 1
    ∧ mem m' !! old = Some (Live ty bs).
Proof.
  intros Hne Hme Hsrc Hhold Hdata Hold.
  destruct (copy_assign_spec m this tile me src_tile src)
    as (me' & hp' & Hrun & a & Ha & Hfresh & -> & Hown & _); try done.
  eexists me', _. split; [exact Hrun|]. cbn [objs mem].
  split; [apply lookup_insert_eq|].
  assert (a ≠ old) by (intros ->; congruence).
  split; [rewrite Ha; by eexists|]. split; [congruence|].
  split; [done|]. by rewrite lookup_insert_ne.
Qed.

(** X10, evaluated: the destination owns the two 16 bit samples and is
    assigned the 4 by 4 tile. *)
Lemma copy_assign_keeps_old_buffer_allocated_witness :
  ∃ me' m',
    copy_assign 1 0 two_buffers = Some m'
    ∧ objs m' !! 1%nat = Some me'
    ∧ data me' ≠ Some 3%positive
    ∧ mem m' !! 3%positive = Some (Live T_ushort (Some <$> [1; 2; 3; 4])).
Proof.
  destruct (copy_assign_keeps_old_buffer_allocated two_buffers 1 0
              tile_2x1_16_at_3 tile_4x4 bytes_4x4 3%positive T_ushort
              (Some <$> [1; 2; 3; 4]))
    as (me' & m' & Hrun & Hthis & _ & Hne & _ & Hold);
    try reflexivity; [done| |].
  - split; [reflexivity|]. split; [by vm_compute|]. by exists 16.
  - exists me', m'. split; [exact Hrun|]. split; [exact Hthis|].
    split; [exact Hne|exact Hold].
Defined.

(** ** Crop, continued *)

Section CropMore.

Implicit Types (t : RawTile) (hp : gmap positive slot) (bs : list cell).

(** Bytes known line by line and column by column give the rectangle. *)
Lemma rows_to_rectangle (out src : list cell) (slen dlen h : Z) :
  0 <= h → 0 <= dlen <= slen →
  (∀ i j, 0 <= i < h → 0 <= j < dlen →
     out !! Z.to_nat (i * dlen + j) = src !! Z.to_nat (i * slen + j)) →
  take (Z.to_nat (h * dlen)) out = top_left_rectangle src slen dlen h.
Proof.
  intros Hh Hd Hrows. unfold top_left_rectangle.
  replace (h * dlen) with (Z.of_nat (Z.to_nat h) * dlen) by lia.
  replace h with (Z.of_nat (Z.to_nat h)) at 2 by lia.
  apply take_rows; [lia|]. intros i Hi.
  apply scanline_of_rows; [lia|done|]. intros j Hj. apply Hrows; lia.
Qed.

(** The rectangle of full width is the buffer itself. *)
Lemma full_width_rectangle (src : list cell) (slen h : Z) :
  0 <= h → 0 <= slen →
  top_left_rectangle src slen slen h = take (Z.to_nat (h * slen)) src.
Proof.
  intros Hh Hs. symmetry. by apply rows_to_rectangle.
Qed.

(** The state after a [crop] under its contract is again one [crop] and
    the destructor accept. *)
Lemma crop_run_state t hp src w h :
  is_uint32 (width t) → is_uint32 (height t) →
  0 <= channels t → 0 <= bpc t →
  block_bytes (data t) hp = Some src →
  height t * (width t * channels t * (bpc t ÷ 8)) <= zlength src →
  height t * (width t * channels t * (bpc t ÷ 8)) < 2 ^ 32 →
  releasable t hp →
  0 <= w <= width t → 0 <= h <= height t →
  ∃ t' hp' a s out,
    crop w h t hp = Some (t', hp')
    ∧ t' = set_height h (set_width w
             (set_dataLength (w * h * channels t * (bpc t ÷ 8))
                (set_capacity (w * h * channels t * (bpc t ÷ 8))
                   (set_memoryManaged 1 (set_data (Some a) t)))))
    ∧ data t = Some s ∧ a ≠ s ∧ hp !! a = None
    ∧ hp' = (if memoryManaged t =? 0
             then <[a := Live (alloc_type t) out]> hp
             else <[s := Freed]> (<[a := Live (alloc_type t) out]> hp))
    ∧ hp' !! a = Some (Live (alloc_type t) out)
    ∧ zlength out
      = alloc_bytes t (requested_size (w * h * channels t * (bpc t ÷ 8)) t)
    ∧ h * (w * channels t * (bpc t ÷ 8)) <= zlength out
    ∧ h * (w * channels t * (bpc t ÷ 8)) < 2 ^ 32
    ∧ 0 <= w * channels t * (bpc t ÷ 8)
         <= width t * channels t * (bpc t ÷ 8)
    ∧ (∀ i j, 0 <= i < h → 0 <= j < w * channels t * (bpc t ÷ 8) →
         out !! Z.to_nat (i * (w * channels t * (bpc t ÷ 8)) + j)
         = src !! Z.to_nat (i * (width t * channels t * (bpc t ÷ 8)) + j)).
Proof.
  intros Hw Hh Hc Hb Hsrc Hhold Hfit Hrel Hw' Hh'.
  destruct (crop_run t hp src w h) as
    (a & s & out & hp' & Hrun & Hdata & Hne & Ha & Hhp' & Hzout & Hlen & Hrows);
    try done.
  pose proof (quot8_nonneg _ Hb).
  set (P := channels t * (bpc t ÷ 8)).
  assert (0 <= P) as HP by (apply Z.mul_nonneg_nonneg; lia).
  destruct (crop_sizes P w h (width t) (height t) HP Hw' Hh')
    as (Hd1 & Hl1 & _).
  eexists _, hp', a, s, out. split; [exact Hrun|].
  split; [done|]. split; [done|]. split; [done|]. split; [done|].
  split; [done|]. split.
  { rewrite Hhp'. case_match.
    - by rewrite lookup_insert_eq.
    - rewrite lookup_insert_ne by done. by rewrite lookup_insert_eq. }
  split; [done|].
  replace (w * channels t * (bpc t ÷ 8)) with (w * P) by (unfold P; lia).
  replace (width t * channels t * (bpc t ÷ 8)) with (width t * P)
    by (unfold P; lia).
  replace (width t * channels t * (bpc t ÷ 8)) with (width t * P) in Hfit
    by (unfold P; lia).
  split.
  { replace (h * (w * P)) with (w * h * channels t * (bpc t ÷ 8))
      by (unfold P; lia). done. }
  split; [lia|]. split; [done|].
  intros i j Hi Hj.
  replace (w * P) with (w * channels t * (bpc t ÷ 8)) in * by (unfold P; lia).
  replace (width t * P) with (width t * channels t * (bpc t ÷ 8))
    by (unfold P; lia).
  by apply Hrows.
Qed.

End CropMore.

(** X11.  Cropping in two steps gives what cropping in one step gives:
    under the contract of [crop], [crop( w1, h1 )] followed by
    [crop( w2, h2 )] with [w2 <= w1] and [h2 <= h1] returns, and the
    resulting tile has the width, height and sizes, and its buffer the
    [dataLength] bytes, that [crop( w2, h2 )] alone gives: the top-left
    rectangle of the original buffer. *)
Theorem crop_twice_is_crop_once
    (t : RawTile) (hp : gmap positive slot) (src : list cell)
    (w1 h1 w2 h2 : Z) :
  is_uint32 (width t) → is_uint32 (height t) →
  0 <= channels t → 0 <= bpc t →
  block_bytes (data t) hp = Some src →
  height t * (width t * channels t * (bpc t ÷ 8)) <= zlength src →
  is_uint32 (height t * (width t * channels t * (bpc t ÷ 8))) →
  releasable t hp →
  0 <= w2 <= w1 → w1 <= width t → 0 <= h2 <= h1 → h1 <= height t →
  ∃ t1 hp1 t2 hp2 blk2 t2' hp2' blk2',
    crop w1 h1 t hp = Some (t1, hp1)
    ∧ crop w2 h2 t1 hp1 = Some (t2, hp2)
    ∧ crop w2 h2 t hp = Some (t2', hp2')
    ∧ block_bytes (data t2) hp2 = Some blk2
    ∧ block_bytes (data t2') hp2' = Some blk2'
    ∧ width t2 = width t2' ∧ height t2 = height t2'
    ∧ capacity t2 = capacity t2' ∧ dataLength t2 = dataLength t2'
    ∧ take (Z.to_nat (dataLength t2)) blk2
      = take (Z.to_nat (dataLength t2')) blk2'
    ∧ take (Z.to_nat (dataLength t2)) blk2
      = top_left_rectangle src (width t * channels t * (bpc t ÷ 8))
                           (w2 * channels t * (bpc t ÷ 8)) h2.
Proof.
  intros Hw Hh Hc Hb Hsrc Hhold [_ Hfit] Hrel Hw2 Hw1 Hh2 Hh1.
  destruct (crop_run_state t hp src w1 h1)
    as (t1 & hp1 & a1 & s & out1 & Hrun1 & Ht1 & Hdata & Hne1 & Ha1 & Hhp1
        & Hnew1 & Hz1 & Hlen1 & Hfit1 & Hd1 & Hrows1); try done; try lia.
  unfold is_uint32, UINT32_MOD in Hw, Hh.
  destruct (crop_run_state t1 hp1 out1 w2 h2)
    as (t2 & hp2 & a2 & s2 & out2 & Hrun2 & Ht2 & Hdata2 & Hne2 & Ha2 & Hhp2
        & Hnew2 & Hz2 & Hlen2 & Hfit2 & Hd2 & Hrows2);
    try (subst t1; tile_simpl; unfold is_uint32, UINT32_MOD; done || lia).
  { subst t1. tile_simpl. unfold block_bytes. by rewrite Hnew1. }
  { subst t1. intros _. tile_simpl. exists (alloc_type t).
    split; [unfold block_type; by rewrite Hnew1|].
    apply (release_alloc_compatible t). }
  destruct (crop_run_state t hp src w2 h2)
    as (t2' & hp2' & a2' & s' & out2' & Hrun' & Ht2' & _ & _ & _ & _
        & Hnew' & _ & Hlen' & _ & Hd' & Hrows'); try done; try lia.
  assert (dataLength t2 = h2 * (w2 * channels t * (bpc t ÷ 8))) as Hdl.
  { subst t2 t1. tile_simpl. lia. }
  assert (dataLength t2' = h2 * (w2 * channels t * (bpc t ÷ 8))) as Hdl'.
  { subst t2'. tile_simpl. lia. }
  assert (take (Z.to_nat (dataLength t2)) out2
          = top_left_rectangle src (width t * channels t * (bpc t ÷ 8))
              (w2 * channels t * (bpc t ÷ 8)) h2) as Hrect.
  { rewrite Hdl. apply rows_to_rectangle; [lia|lia|].
    intros i j Hi Hj. subst t1. tile_simpl.
    rewrite Hrows2 by lia. apply Hrows1; [lia|].
    assert (w2 * (channels t * (bpc t ÷ 8)) <= w1 * (channels t * (bpc t ÷ 8))).
    { apply Z.mul_le_mono_nonneg_r; [|lia].
      apply Z.mul_nonneg_nonneg; [lia|]. by apply quot8_nonneg. }
    lia. }
  exists t1, hp1, t2, hp2, out2, t2', hp2', out2'.
  split; [done|]. split; [done|]. split; [done|].
  split.
  { rewrite Ht2. tile_simpl. unfold block_bytes. by rewrite Hnew2. }
  split.
  { rewrite Ht2'. tile_simpl. unfold block_bytes. by rewrite Hnew'. }
  split; [subst; done|]. split; [subst; done|].
  split; [subst; done|]. split; [congruence|].
  split; [|done].
  rewrite Hrect, Hdl'. symmetry. by apply rows_to_rectangle; [lia|lia|].
Qed.

(** X11, evaluated: the 4 by 4 tile cropped to 3 by 3 and then to 2 by 2
    holds the bytes 0, 1, 4, 5. *)
Lemma crop_twice_is_crop_once_witness :
  ∃ t1 hp1 t2 hp2 blk2,
    crop 3 3 tile_4x4 heap_4x4 = Some (t1, hp1)
    ∧ crop 2 2 t1 hp1 = Some (t2, hp2)
    ∧ block_bytes (data t2) hp2 = Some blk2
    ∧ dataLength t2 = 4
    ∧ take 4 blk2 = Some <$> [0; 1; 4; 5].
Proof.
  destruct (crop_twice_is_crop_once tile_4x4 heap_4x4 bytes_4x4 3 3 2 2)
    as (t1 & hp1 & t2 & hp2 & blk2 & t2' & hp2' & blk2' & Hrun1 & Hrun2
        & Hrun' & Hblk & _ & _ & _ & _ & Hdl & _ & Hrect).
  - by vm_compute.
  - by vm_compute.
  - by vm_compute.
  - by vm_compute.
  - reflexivity.
  - by vm_compute.
  - by vm_compute.
  - intros _. exists T_uchar. split; reflexivity.
  - by vm_compute.
  - by vm_compute.
  - by vm_compute.
  - by vm_compute.
  - assert (dataLength t2 = 4) as Hdl4.
    { rewrite Hdl. vm_compute in Hrun'. by injection Hrun' as <- _. }
    exists t1, hp1, t2, hp2, blk2.
    split; [exact Hrun1|]. split; [exact Hrun2|]. split; [exact Hblk|].
    split; [exact Hdl4|]. rewrite Hdl4 in Hrect. exact Hrect.
Defined.

(** X12.  Cropping a tile to its own width and height copies the buffer:
    the tile gets a new array whose [dataLength] bytes are the first
    [height * width * channels * (bpc/8)] bytes of the old one, and its
    geometry is unchanged. *)
Theorem crop_to_own_size_copies
    (t : RawTile) (hp : gmap positive slot) (src : list cell) :
  is_uint32 (width t) → is_uint32 (height t) →
  0 <= channels t → 0 <= bpc t →
  block_bytes (data t) hp = Some src →
  height t * (width t * channels t * (bpc t ÷ 8)) <= zlength src →
  is_uint32 (height t * (width t * channels t * (bpc t ÷ 8))) →
  releasable t hp →
  ∃ t' hp' blk,
    crop (width t) (height t) t hp = Some (t', hp')
    ∧ width t' = width t ∧ height t' = height t
    ∧ dataLength t' = height t * (width t * channels t * (bpc t ÷ 8))
    ∧ block_bytes (data t') hp' = Some blk
    ∧ data t' ≠ data t
    ∧ take (Z.to_nat (dataLength t')) blk
      = take (Z.to_nat (dataLength t')) src.
Proof.
  intros Hw Hh Hc Hb Hsrc Hhold [_ Hfit] Hrel.
  unfold is_uint32, UINT32_MOD in Hw, Hh.
  destruct (crop_run_state t hp src (width t) (height t))
    as (t' & hp' & a & s & out & Hrun & Ht' & Hdata & Hne & Ha & Hhp'
        & Hnew & Hz & Hlen & _ & Hd & Hrows); try done; try lia.
  exists t', hp', out. split; [done|].
  assert (dataLength t' = height t * (width t * channels t * (bpc t ÷ 8)))
    as Hdl by (subst t'; tile_simpl; lia).
  split; [by subst|]. split; [by subst|]. split; [done|].
  split; [subst t'; tile_simpl; unfold block_bytes; by rewrite Hnew|].
  split; [subst t'; tile_simpl; congruence|].
  rewrite Hdl.
  transitivity (top_left_rectangle src (width t * channels t * (bpc t ÷ 8))
                  (width t * channels t * (bpc t ÷ 8)) (height t)).
  - by apply rows_to_rectangle; [lia|lia|].
  - apply full_width_rectangle; lia.
Qed.

(** X12, evaluated at the 4 by 4 tile. *)
Lemma crop_to_own_size_copies_witness :
  ∃ t' hp' blk,
    crop 4 4 tile_4x4 heap_4x4 = Some (t', hp')
    ∧ block_bytes (data t') hp' = Some blk
    ∧ dataLength t' = 16
    ∧ take 16 blk = bytes_4x4.
Proof.
  destruct (crop_to_own_size_copies tile_4x4 heap_4x4 bytes_4x4)
    as (t' & hp' & blk & Hrun & _ & _ & Hdl & Hblk & _ & Hcopy).
  - by vm_compute.
  - by vm_compute.
  - by vm_compute.
  - by vm_compute.
  - reflexivity.
  - by vm_compute.
  - by vm_compute.
  - intros _. exists T_uchar. split; reflexivity.
  - exists t', hp', blk. split; [exact Hrun|]. split; [exact Hblk|].
    split; [exact Hdl|]. rewrite Hdl in Hcopy. exact Hcopy.
Defined.

(** X13.  A crop to no pixels still allocates: when [w * h] is zero,
    [crop( w, h )] calls [allocate( 0 )], which falls back to the size of
    the old geometry.  The tile then has [capacity = dataLength = 0] and
    refers to a new array of [width * height * channels * (bpc/8)] bytes,
    the byte size it had before. *)
Theorem crop_to_nothing_allocates_old_size
    (t : RawTile) (hp : gmap positive slot) (src : list cell) (w h : Z) :
  is_uint32 (width t) → is_uint32 (height t) →
  0 <= channels t → 0 <= bpc t →
  block_bytes (data t) hp = Some src →
  height t * (width t * channels t * (bpc t ÷ 8)) <= zlength src →
  is_uint32 (height t * (width t * channels t * (bpc t ÷ 8))) →
  releasable t hp →
  0 <= w <= width t → 0 <= h <= height t →
  w * h = 0 →
  ∃ t' hp' blk,
    crop w h t hp = Some (t', hp')
    ∧ width t' = w ∧ height t' = h
    ∧ capacity t' = 0 ∧ dataLength t' = 0
    ∧ block_bytes (data t') hp' = Some blk
    ∧ zlength blk = width t * height t * channels t * (bpc t ÷ 8).
Proof.
  intros Hw Hh Hc Hb Hsrc Hhold Hfit Hrel Hw' Hh' Hzero.
  destruct (crop_run_state t hp src w h)
    as (t' & hp' & a & s & out & Hrun & Ht' & Hdata & Hne & Ha & Hhp'
        & Hnew & Hz & _); try done; try apply Hfit.
  exists t', hp', out. split; [done|].
  rewrite Hzero in Ht', Hz. cbn [Z.mul] in Ht', Hz.
  split; [by subst|]. split; [by subst|].
  split; [by subst|]. split; [by subst|].
  split; [subst t'; tile_simpl; unfold block_bytes; by rewrite Hnew|].
  rewrite Hz. unfold requested_size, default_size. cbn [Z.eqb].
  rewrite byte_size_exact.
  - apply alloc_bytes_exact, elem_size_divides.
  - replace (width t * height t * channels t * (bpc t ÷ 8))
      with (height t * (width t * channels t * (bpc t ÷ 8))) by lia.
    done.
Qed.

(** X13, evaluated: the 4 by 4 tile cropped to 0 by 0 refers to sixteen
    bytes. *)
Lemma crop_to_nothing_allocates_old_size_witness :
  ∃ t' hp' blk,
    crop 0 0 tile_4x4 heap_4x4 = Some (t', hp')
    ∧ capacity t' = 0 ∧ dataLength t' = 0
    ∧ block_bytes (data t') hp' = Some blk
    ∧ zlength blk = 16.
Proof.
  destruct (crop_to_nothing_allocates_old_size tile_4x4 heap_4x4 bytes_4x4
              0 0)
    as (t' & hp' & blk & Hrun & _ & _ & Hc & Hd & Hblk & Hz).
  - by vm_compute.
  - by vm_compute.
  - by vm_compute.
  - by vm_compute.
  - reflexivity.
  - by vm_compute.
  - by vm_compute.
  - intros _. exists T_uchar. split; reflexivity.
  - by vm_compute.
  - by vm_compute.
  - reflexivity.
  - exists t', hp', blk. split; [exact Hrun|]. split; [exact Hc|].
    split; [exact Hd|]. split; [exact Hblk|exact Hz].
Defined.

(** X14.  A crop followed by the destructor leaves no array of the tile
    allocated and releases nothing twice: the destructor returns and
    releases the array [crop] created; the old array was released by
    [crop] when the tile owned it, and is untouched, bytes included, when
    the tile did not own it; every other block is as before. *)
Theorem crop_then_destroy
    (t : RawTile) (hp : gmap positive slot) (src : list cell) (w h : Z) :
  is_uint32 (width t) → is_uint32 (height t) →
  0 <= channels t → 0 <= bpc t →
  block_bytes (data t) hp = Some src →
  height t * (width t * channels t * (bpc t ÷ 8)) <= zlength src →
  is_uint32 (height t * (width t * channels t * (bpc t ÷ 8))) →
  releasable t hp →
  0 <= w <= width t → 0 <= h <= height t →
  ∃ t' hp' hp'' a s,
    crop w h t hp = Some (t', hp')
    ∧ destructor t' hp' = Some hp''
    ∧ data t' = Some a ∧ data t = Some s
    ∧ hp !! a = None
    ∧ hp'' !! a = Some Freed
    ∧ hp'' !! s = (if memoryManaged t =? 0 then hp !! s else Some Freed)
    ∧ (∀ x, x ≠ a → x ≠ s → hp'' !! x = hp !! x).
Proof.
  intros Hw Hh Hc Hb Hsrc Hhold Hfit Hrel Hw' Hh'.
  destruct (crop_run_state t hp src w h)
    as (t' & hp' & a & s & out & Hrun & Ht' & Hdata & Hne & Ha & Hhp'
        & Hnew & _); try done; try apply Hfit.
  assert (destructor t' hp' = Some (<[a := Freed]> hp')) as Hd.
  { eapply destructor_owner; [| |exact Hnew|].
    - subst t'. by tile_simpl.
    - subst t'. by tile_simpl.
    - subst t'. apply (release_alloc_compatible t). }
  exists t', hp', (<[a := Freed]> hp'), a, s.
  split; [done|]. split; [done|].
  split; [by subst t'|]. split; [done|]. split; [done|].
  split; [apply lookup_insert_eq|].
  rewrite Hhp'. split.
  - rewrite lookup_insert_ne by done. case_match.
    + by rewrite lookup_insert_ne.
    + apply lookup_insert_eq.
  - intros x Hxa Hxs. rewrite lookup_insert_ne by done. case_match.
    + by rewrite lookup_insert_ne.
    + by rewrite !lookup_insert_ne.
Qed.

(** X14, evaluated at the 4 by 4 tile, which owns its buffer. *)
Lemma crop_then_destroy_witness :
  ∃ t' hp' hp'' a,
    crop 2 2 tile_4x4 heap_4x4 = Some (t', hp')
    ∧ destructor t' hp' = Some hp''
    ∧ hp'' !! a = Some Freed ∧ a ≠ 1%positive
    ∧ hp'' !! 1%positive = Some Freed.
Proof.
  destruct (crop_then_destroy tile_4x4 heap_4x4 bytes_4x4 2 2)
    as (t' & hp' & hp'' & a & s & Hrun & Hd & _ & Hs & Ha & Hfa & Hfs & _).
  - by vm_compute.
  - by vm_compute.
  - by vm_compute.
  - by vm_compute.
  - reflexivity.
  - by vm_compute.
  - by vm_compute.
  - intros _. exists T_uchar. split; reflexivity.
  - by vm_compute.
  - by vm_compute.
  - exists t', hp', hp'', a. split; [exact Hrun|]. split; [exact Hd|].
    split; [exact Hfa|]. injection Hs as <-.
    split; [|exact Hfs]. intros ->. by vm_compute in Ha.
Defined.

Section CropBounds.

Implicit Types (t : RawTile) (hp : gmap positive slot) (bs : list cell).

(** A [memcpy] that returns had both ranges inside live arrays. *)
Lemma memcpy_Some d doff s soff n hp hp' :
  memcpy (Some (d, doff)) (Some (s, soff)) n hp = Some hp' →
  ∃ dty dbs sty sbs,
    hp !! d = Some (Live dty dbs) ∧ hp !! s = Some (Live sty sbs)
    ∧ 0 <= n ∧ 0 <= soff ∧ soff + n <= zlength sbs
    ∧ (d = s → doff + n <= soff ∨ soff + n <= doff)
    ∧ hp' = <[d := Live dty (write_bytes doff (read_bytes soff n sbs) dbs)]> hp.
Proof.
  unfold memcpy. destruct (hp !! d) as [[dty dbs|]|]; try done.
  destruct (hp !! s) as [[sty sbs|]|]; try done.
  case_decide as Hc; [|done]. intros [= <-].
  destruct Hc as (? & ? & ? & ? & ? & ?).
  by eexists _, _, _, _.
Qed.

(** A scanline loop that returns has read every line inside the source
    array. *)
Lemma crop_lines_Some (rows : nat) :
  ∀ d s doff soff dlen slen hp hp' sty sbs,
    d ≠ s → hp !! s = Some (Live sty sbs) →
    crop_lines rows (Some (d, doff)) (Some (s, soff)) dlen slen hp = Some hp' →
    ∀ i, 0 <= i < Z.of_nat rows → soff + i * slen + dlen <= zlength sbs.
Proof.
  induction rows as [|rows IH];
    intros d s doff soff dlen slen hp hp' sty sbs Hne Hs Hrun i Hi; [lia|].
  cbn [crop_lines ptr_add] in Hrun.
  destruct (memcpy _ _ _ _) as [hp1|] eqn:Hcopy; [|done].
  cbn [mbind option_bind] in Hrun.
  destruct (memcpy_Some _ _ _ _ _ _ _ Hcopy)
    as (dty & dbs & sty' & sbs' & Hd & Hs' & Hn & Hso & Hlen & _ & ->).
  assert (sbs' = sbs) as -> by congruence.
  destruct (decide (i = 0)) as [->|Hi0]; [lia|].
  assert (soff + slen + (i - 1) * slen + dlen <= zlength sbs); [|lia].
  eapply (IH d s (doff + dlen) (soff + slen) dlen slen _ hp' sty sbs Hne);
    [|exact Hrun|lia].
  by rewrite lookup_insert_ne.
Qed.

End CropBounds.

(** X15.  [crop] checks neither its arguments nor the buffer, and reads
    [h] lines of [w * channels * (bpc/8)] bytes, [width * channels *
    (bpc/8)] bytes apart.  So a crop of at least one line of at least one
    byte returns only if the tile refers to a live array that reaches to
    the end of the last line read: on a null or released buffer, or on one
    that is too short, it does not return. *)
Theorem crop_reads_inside_the_source
    (t : RawTile) (hp : gmap positive slot) (w h : Z)
    (t' : RawTile) (hp' : gmap positive slot) :
  crop w h t hp = Some (t', hp') →
  0 < h → 0 < line_size w (channels t) (bpc t) →
  ∃ s ty src,
    data t = Some s ∧ hp !! s = Some (Live ty src)
    ∧ (h - 1) * line_size (width t) (channels t) (bpc t)
      + line_size w (channels t) (bpc t) <= zlength src.
Proof.
  intros Hrun Hh Hd. unfold crop in Hrun. rewrite allocate_eq in Hrun.
  tile_simpl.
  destruct (crop_lines _ _ _ _ _ _) as [hp2|] eqn:Hlines; [|done].
  clear Hrun.
  assert (Z.to_nat h = S (Z.to_nat (h - 1))) as Hrows by lia.
  destruct (data t) as [s|]; [|by rewrite Hrows in Hlines].
  cbn [byte_cast] in Hlines.
  set (a := fresh (dom hp)) in *.
  assert (∃ ty src, (<[a := Live (alloc_type t)
                        (replicate (Z.to_nat (alloc_bytes t
                           (requested_size (byte_size w h (channels t) (bpc t))
                              t))) None)]> hp) !! s = Some (Live ty src)
                    ∧ a ≠ s) as (ty & src & Hs & Hne).
  { rewrite Hrows in Hlines. cbn [crop_lines] in Hlines.
    destruct (memcpy _ _ _ _) as [hp1|] eqn:Hcopy; [|done].
    destruct (memcpy_Some _ _ _ _ _ _ _ Hcopy)
      as (dty & dbs & sty & sbs & _ & Hs & _ & _ & _ & Hov & _).
    exists sty, sbs. split; [done|]. intros ->.
    destruct (Hov eq_refl); lia. }
  exists s, ty, src. split; [done|].
  rewrite lookup_insert_ne in Hs by done. split; [done|].
  pose proof (crop_lines_Some _ _ _ _ _ _ _ _ _ ty src Hne
                ltac:(by rewrite lookup_insert_ne) Hlines (h - 1)) as Hb.
  rewrite !Z.add_0_l in Hb. apply Hb. lia.
Qed.

(** X15, evaluated at the 4 by 4 tile cropped to 2 by 2: the last byte
    read is the sixth of sixteen. *)
Lemma crop_reads_inside_the_source_witness :
  ∃ t' hp' src,
    crop 2 2 tile_4x4 heap_4x4 = Some (t', hp')
    ∧ block_bytes (data tile_4x4) heap_4x4 = Some src
    ∧ 6 <= zlength src.
Proof.
  destruct (crop 2 2 tile_4x4 heap_4x4) as [[t' hp']|] eqn:Hrun;
    [|by vm_compute in Hrun].
  destruct (crop_reads_inside_the_source tile_4x4 heap_4x4 2 2 t' hp' Hrun)
    as (s & ty & src & Hs & Hlive & Hb); [lia|by vm_compute|].
  exists t', hp', src. split; [reflexivity|].
  split; [unfold block_bytes; by rewrite Hs, Hlive|exact Hb].
Defined.

(** ** Triplicate, continued *)

(** X16.  [triplicate()] is idempotent: on the result of a call that
    returned, a second call changes neither the tile nor the memory. *)
Theorem triplicate_twice (t : RawTile) (hp : gmap positive slot)
                         (t' : RawTile) (hp' : gmap positive slot) :
  triplicate t hp = Some (t', hp') →
  triplicate t' hp' = Some (t', hp').
Proof.
  intros Hrun. destruct (decide (channels t = 1)) as [Hch|Hch].
  - rewrite (triplicate_frame _ _ _ _ Hch Hrun). by unfold triplicate.
  - unfold triplicate in *. rewrite (proj2 (Z.eqb_neq _ _) Hch) in *.
    cbn [negb] in *. simplify_eq.
    by rewrite (proj2 (Z.eqb_neq _ _) Hch).
Qed.

(** X16, evaluated at the two 16 bit samples. *)
Lemma triplicate_twice_witness :
  ∃ t' hp',
    triplicate tile_2x1_16 heap_2x1_16 = Some (t', hp')
    ∧ channels t' = 3
    ∧ triplicate t' hp' = Some (t', hp').
Proof.
  destruct (triplicate tile_2x1_16 heap_2x1_16) as [[t' hp']|] eqn:Hrun;
    [|by vm_compute in Hrun].
  exists t', hp'. split; [reflexivity|]. split.
  - vm_compute in Hrun. by injection Hrun as <- _.
  - exact (triplicate_twice _ _ _ _ Hrun).
Defined.

(** X17.  Below eight bits per channel [bpc/8] is zero, so the array
    [triplicate()] allocates has no element, and the first assignment of
    the loop is out of bounds: on a tile of one channel with at least one
    pixel and [0 <= bpc < 8], [triplicate()] does not return. *)
Theorem triplicate_below_eight_bits_is_undefined
    (t : RawTile) (hp : gmap positive slot) :
  channels t = 1 → 0 <= bpc t < 8 →
  is_uint32 (width t * height t) → 0 < width t * height t →
  triplicate t hp = None.
Proof.
  intros Hch Hb HN Hpos. unfold triplicate. rewrite Hch.
  cbn [Z.eqb Pos.eqb negb]. rewrite allocate_eq. tile_simpl.
  assert (bpc t ÷ 8 = 0) as Hq by (apply Z.quot_small; lia).
  assert (requested_size 0 (set_channels 3 t) = 0) as ->.
  { unfold requested_size, default_size. cbn [Z.eqb]. tile_simpl.
    rewrite byte_size_mod, Hq. by rewrite Z.mul_0_r. }
  assert (alloc_bytes (set_channels 3 t) 0 = 0) as ->.
  { unfold alloc_bytes. rewrite Z.div_0_l; [lia|].
    pose proof (elem_size_pos (set_channels 3 t)). lia. }
  change (Z.to_nat 0) with 0%nat. cbn [replicate].
  rewrite (to_uint32_small _ HN : umul (width t) (height t) = _).
  assert (Z.to_nat (width t * height t)
          = S (Z.to_nat (width t * height t - 1))) as -> by lia.
  cbn [triplicate_pixels]. unfold triplicate_pixel.
  set (t1 := set_capacity 0 _).
  destruct (triplicate_sample_eq t1 (data t) 0 0 0
              (<[fresh (dom hp) := Live (alloc_type (set_channels 3 t)) []]> hp))
    as (ty & Hsz & ->).
  pose proof (elem_size_pos t1) as Hpos1.
  assert (copy_elem ty (data t1) (uadd 0 0) (data t) 0
            (<[fresh (dom hp) := Live (alloc_type (set_channels 3 t)) []]> hp)
          = None) as ->; [|done].
  unfold copy_elem, t1. tile_simpl. destruct (data t) as [s|]; [|done].
  rewrite lookup_insert_eq.
  destruct (_ !! s) as [[sty sbs|]|]; try done.
  cbn zeta. rewrite decide_False; [done|].
  intros (_ & _ & Hd & _). rewrite Hsz in Hd.
  change (zlength []) with 0 in Hd. change (uadd 0 0) with 0 in Hd.
  fold t1 in Hd. lia.
Qed.

(** X17, evaluated: a 2 by 2 tile of one bit per channel. *)
Lemma triplicate_below_eight_bits_is_undefined_witness :
  bpc tile_binary = 1 ∧ triplicate tile_binary heap_binary = None.
Proof.
  split; [reflexivity|].
  apply triplicate_below_eight_bits_is_undefined; by vm_compute.
Defined.

(** X18.  [triplicate()] stores the number of pixels in [capacity] and
    [dataLength], while the array it created holds three elements per
    pixel.  A copy taken afterwards therefore holds the first
    [width * height] bytes of the buffer only. *)
Theorem copy_after_triplicate_is_truncated
    (t : RawTile) (hp : gmap positive slot) (src : list cell) :
  channels t = 1 →
  is_uint32 (width t) → is_uint32 (height t) → 8 <= bpc t →
  block_bytes (data t) hp = Some src →
  width t * height t * elem_size t <= zlength src →
  is_uint32 (width t * height t * 3 * (bpc t ÷ 8)) →
  releasable t hp →
  0 < width t * height t → (elem_size t | width t * height t) →
  ∃ t' hp' blk this hp'',
    triplicate t hp = Some (t', hp')
    ∧ block_bytes (data t') hp' = Some blk
    ∧ zlength blk = width t * height t * 3 * (bpc t ÷ 8)
    ∧ capacity t' = width t * height t
    ∧ dataLength t' = width t * height t
    ∧ copy_construct t' hp' = Some (this, hp'')
    ∧ capacity this = width t * height t
    ∧ block_bytes (data this) hp''
      = Some (take (Z.to_nat (width t * height t)) blk).
Proof.
  intros Hch Hw Hh Hb Hsrc Hhold [_ Hfit] Hrel Hpos Hdiv.
  destruct (triplicate_run t hp src) as
    (a & s & out & hp' & Hrun & Hdata & Hne & Ha & Hhp' & Hzout & _);
    try done.
  set (t' := set_dataLength _ _) in Hrun.
  assert (hp' !! a = Some (Live (alloc_type t) out)) as Hnew.
  { rewrite Hhp'. case_match.
    - by rewrite lookup_insert_eq.
    - rewrite lookup_insert_ne by done. by rewrite lookup_insert_eq. }
  assert (holds_data t' hp' out) as Hholds.
  { split; [unfold t'; tile_simpl; unfold block_bytes; by rewrite Hnew|].
    unfold t'. tile_simpl. split; [|done].
    pose proof (elem_size_le_quot t Hb). pose proof (elem_size_pos t).
    assert (width t * height t * 1
            <= width t * height t * (3 * (bpc t ÷ 8)))
      by (apply Z.mul_le_mono_nonneg_l; lia).
    lia. }
  destruct (copy_construct_spec t' hp' out Hholds)
    as (this & hp'' & Hcopy & c & Hc & _ & -> & _ & Hcap & _).
  eexists t', hp', out, this, _. split; [done|].
  split; [apply Hholds|]. split; [done|].
  split; [done|]. split; [done|]. split; [exact Hcopy|].
  split; [done|]. rewrite Hc. unfold block_bytes.
  by rewrite lookup_insert_eq.
Qed.

(** X18, evaluated: after the two 16 bit samples were triplicated into
    twelve bytes, a copy holds two bytes. *)
Lemma copy_after_triplicate_is_truncated_witness :
  ∃ t' hp' blk this hp'',
    triplicate tile_2x1_16 heap_2x1_16 = Some (t', hp')
    ∧ block_bytes (data t') hp' = Some blk
    ∧ zlength blk = 12 ∧ dataLength t' = 2
    ∧ copy_construct t' hp' = Some (this, hp'')
    ∧ block_bytes (data this) hp'' = Some (take 2 blk).
Proof.
  destruct (copy_after_triplicate_is_truncated tile_2x1_16 heap_2x1_16
              (Some <$> [1; 2; 3; 4]))
    as (t' & hp' & blk & this & hp'' & Hrun & Hblk & Hz & _ & Hd & Hcopy
        & _ & Hbytes).
  - reflexivity.
  - by vm_compute.
  - by vm_compute.
  - by vm_compute.
  - reflexivity.
  - by vm_compute.
  - by vm_compute.
  - intros _. exists T_ushort. split; reflexivity.
  - by vm_compute.
  - by exists 1.
  - exists t', hp', blk, this, hp''. split; [exact Hrun|].
    split; [exact Hblk|]. split; [exact Hz|]. split; [exact Hd|].
    split; [exact Hcopy|exact Hbytes].
Defined.

(** ** Move construction from a borrower *)

(** X19.  The move constructor, given a tile that is not marked as owner
    and has data, copies instead of taking over: the new tile owns a
    fresh array with the [dataLength] bytes, the tile moved from keeps
    every member, its reference included, and its buffer is untouched,
    also after the new tile is destroyed. *)
Theorem move_construct_from_borrower_copies
    (tile : RawTile) (hp : gmap positive slot) (src : list cell) :
  memoryManaged tile ≠ 1 → holds_data tile hp src →
  ∃ this hp' a,
    move_construct tile hp = Some (this, tile, hp')
    ∧ data this = Some a ∧ hp !! a = None ∧ data this ≠ data tile
    ∧ memoryManaged this = 1
    ∧ block_bytes (data this) hp'
      = Some (take (Z.to_nat (dataLength tile)) src)
    ∧ block_bytes (data tile) hp' = Some src
    ∧ destructor this hp' = Some (<[a := Freed]> hp')
    ∧ block_bytes (data tile) (<[a := Freed]> hp') = Some src.
Proof.
  intros Hmm Hhold.
  destruct (move_construct_borrower tile hp src Hmm Hhold)
    as (this & hp' & Hrun & Hdeep).
  destruct (deep_copy_isolated tile this src hp hp' (proj1 Hhold) Hdeep)
    as (Hne & Hcopy & Hty & Hsrc & Hiso).
  destruct Hdeep as (a & Hdata & Ha & Hhp' & Hown & _ & Heq).
  exists this, hp', a. split; [done|].
  split; [done|]. split; [done|]. split; [done|]. split; [done|].
  split; [done|]. split; [done|]. split.
  - destruct (block_type_Some _ _ _ Hty) as (a' & bs' & Ha' & Hlive).
    assert (a' = a) as -> by congruence.
    eapply destructor_owner; [lia|done|exact Hlive|].
    assert (release_type this = release_type tile) as ->.
    { rewrite <- Heq. done. }
    apply release_alloc_compatible.
  - by apply Hiso.
Qed.

(** X19, evaluated at the 4 by 4 tile as a borrower. *)
Lemma move_construct_from_borrower_copies_witness :
  ∃ this hp',
    move_construct tile_4x4_borrowed heap_4x4
    = Some (this, tile_4x4_borrowed, hp')
    ∧ memoryManaged this = 1
    ∧ data this ≠ data tile_4x4_borrowed
    ∧ block_bytes (data this) hp' = Some bytes_4x4
    ∧ block_bytes (data tile_4x4_borrowed) hp' = Some bytes_4x4.
Proof.
  destruct (move_construct_from_borrower_copies tile_4x4_borrowed heap_4x4
              bytes_4x4)
    as (this & hp' & a & Hrun & _ & _ & Hne & Hown & Hcopy & Hsrc & _).
  - by vm_compute.
  - split; [reflexivity|]. split; [by vm_compute|]. by exists 16.
  - exists this, hp'. split; [exact Hrun|]. split; [exact Hown|].
    split; [exact Hne|]. split; [exact Hcopy|exact Hsrc].
Defined.

(** ** Release *)

(** X20.  [deallocate] leaves [data] as it is, so nothing keeps a buffer
    from being released twice: after a [deallocate] of a non-null pointer
    that returned, a second [deallocate] of the same pointer does not
    return, and neither does the destructor of a tile that owns the
    buffer it just released. *)
Theorem release_twice_is_undefined
    (t : RawTile) (hp : gmap positive slot) (a : positive)
    (t' : RawTile) (hp' : gmap positive slot) :
  deallocate (Some a) t hp = Some (t', hp') →
  data t' = data t
  ∧ memoryManaged t' = memoryManaged t
  ∧ deallocate (Some a) t' hp' = None
  ∧ (data t = Some a → memoryManaged t ≠ 0 → destructor t' hp' = None).
Proof.
  rewrite deallocate_eq. unfold delete_array.
  destruct (hp !! a) as [[ty bs|]|]; [|done|done].
  destruct (release_compatible ty (release_type t)); [|done].
  cbn [mbind option_bind]. intros [= <- <-]. tile_simpl.
  split; [done|]. split; [done|].
  assert (deallocate (Some a) (set_dataLength 0 (set_capacity 0 t))
            (<[a := Freed]> hp) = None) as Hagain.
  { apply deallocate_freed, lookup_insert_eq. }
  split; [done|]. intros Hdata Hmm. unfold destructor. tile_simpl.
  rewrite (proj2 (Z.eqb_neq _ _) Hmm), Hdata. by rewrite Hagain.
Qed.

(** X20, evaluated at the 4 by 4 tile. *)
Lemma release_twice_is_undefined_witness :
  ∃ t' hp',
    deallocate (data tile_4x4) tile_4x4 heap_4x4 = Some (t', hp')
    ∧ data t' = Some 1%positive
    ∧ destructor t' hp' = None.
Proof.
  destruct (deallocate (data tile_4x4) tile_4x4 heap_4x4)
    as [[t' hp']|] eqn:Hrun; [|by vm_compute in Hrun].
  destruct (release_twice_is_undefined tile_4x4 heap_4x4 1%positive t' hp'
              Hrun) as (Hd & _ & _ & Hdes).
  exists t', hp'. split; [reflexivity|]. split; [exact Hd|].
  apply Hdes; [reflexivity|by vm_compute].
Defined.

(** X21.  A triplication followed by the destructor leaves no array of
    the tile allocated and releases nothing twice: the destructor returns
    and releases the array [triplicate()] created; the old array was
    released by [triplicate()] when the tile owned it, and is untouched
    when the tile did not own it; every other block is as before. *)
Theorem triplicate_then_destroy
    (t : RawTile) (hp : gmap positive slot) (src : list cell) :
  channels t = 1 →
  is_uint32 (width t) → is_uint32 (height t) → 8 <= bpc t →
  block_bytes (data t) hp = Some src →
  width t * height t * elem_size t <= zlength src →
  is_uint32 (width t * height t * 3 * (bpc t ÷ 8)) →
  releasable t hp →
  ∃ t' hp' hp'' a s,
    triplicate t hp = Some (t', hp')
    ∧ destructor t' hp' = Some hp''
    ∧ data t' = Some a ∧ data t = Some s
    ∧ hp !! a = None
    ∧ hp'' !! a = Some Freed
    ∧ hp'' !! s = (if memoryManaged t =? 0 then hp !! s else Some Freed)
    ∧ (∀ x, x ≠ a → x ≠ s → hp'' !! x = hp !! x).
Proof.
  intros Hch Hw Hh Hb Hsrc Hhold [_ Hfit] Hrel.
  destruct (triplicate_run t hp src) as
    (a & s & out & hp' & Hrun & Hdata & Hne & Ha & Hhp' & _); try done.
  set (t' := set_dataLength _ _) in Hrun.
  assert (hp' !! a = Some (Live (alloc_type t) out)) as Hnew.
  { rewrite Hhp'. case_match.
    - by rewrite lookup_insert_eq.
    - rewrite lookup_insert_ne by done. by rewrite lookup_insert_eq. }
  assert (destructor t' hp' = Some (<[a := Freed]> hp')) as Hd.
  { eapply destructor_owner; [| |exact Hnew|].
    - by unfold t'.
    - by unfold t'.
    - apply (release_alloc_compatible t). }
  exists t', hp', (<[a := Freed]> hp'), a, s.
  split; [done|]. split; [done|]. split; [done|]. split; [done|].
  split; [done|]. split; [apply lookup_insert_eq|].
  rewrite Hhp'. split.
  - rewrite lookup_insert_ne by done. case_match.
    + by rewrite lookup_insert_ne.
    + apply lookup_insert_eq.
  - intros x Hxa Hxs. rewrite lookup_insert_ne by done. case_match.
    + by rewrite lookup_insert_ne.
    + by rewrite !lookup_insert_ne.
Qed.

(** X21, evaluated at the two 16 bit samples. *)
Lemma triplicate_then_destroy_witness :
  ∃ t' hp' hp'' a,
    triplicate tile_2x1_16 heap_2x1_16 = Some (t', hp')
    ∧ destructor t' hp' = Some hp''
    ∧ hp'' !! a = Some Freed ∧ a ≠ 1%positive
    ∧ hp'' !! 1%positive = Some Freed.
Proof.
  destruct (triplicate_then_destroy tile_2x1_16 heap_2x1_16
              (Some <$> [1; 2; 3; 4]))
    as (t' & hp' & hp'' & a & s & Hrun & Hd & _ & Hs & Ha & Hfa & Hfs & _).
  - reflexivity.
  - by vm_compute.
  - by vm_compute.
  - by vm_compute.
  - reflexivity.
  - by vm_compute.
  - by vm_compute.
  - intros _. exists T_ushort. split; reflexivity.
  - exists t', hp', hp'', a. split; [exact Hrun|]. split; [exact Hd|].
    split; [exact Hfa|]. injection Hs as <-.
    split; [|exact Hfs]. intros ->. by vm_compute in Ha.
Defined.
